(** * Rainative: the view-state controller and the summariser stub

    A shallow embedding of
      - [src/components/InputTabs.tsx], the React component [InputTabs]
        (its [useState] cells, its event handlers and the guards its render
        function puts on them), and
      - [api/services/summarizer.py], the class [SummarizerService], which the
        repository carries in compiled form (CPython 3.12 code object: names,
        constants and the [try]/[except Exception as e] frame are those of the
        code object).

    Module [JS] holds ECMAScript strings, [Controller] the component,
    [Summarizer] the Python service. *)

From Stdlib Require Import List String Ascii NArith ZArith Bool Arith Lia DecimalString.
From Stdlib Require DecimalN DecimalPos.
Import ListNotations.

(* ===================================================================== *)
(** ** ECMAScript strings                                                *)
(* ===================================================================== *)

Module JS.

(** A JavaScript string is a sequence of UTF-16 code units. *)
Definition code_unit := N.
Definition jsstring := list code_unit.

(** A literal of the source text (all literals of the component are ASCII). *)
Definition lit (s : string) : jsstring :=
  map N_of_ascii (list_ascii_of_string s).

(** [WhiteSpace] and [LineTerminator] of ECMA-262, the code units that
    [String.prototype.trim] removes. *)
Definition is_white_space (c : code_unit) : bool :=
  ((9 <=? c) && (c <=? 13)            (* TAB, LF, VT, FF, CR *)
   || (c =? 32)                       (* SPACE *)
   || (c =? 160)                      (* NO-BREAK SPACE *)
   || (c =? 5760)                     (* U+1680 *)
   || ((8192 <=? c) && (c <=? 8202))  (* U+2000 .. U+200A *)
   || (c =? 8232) || (c =? 8233)      (* LS, PS *)
   || (c =? 8239)                     (* U+202F *)
   || (c =? 8287)                     (* U+205F *)
   || (c =? 12288)                    (* U+3000 *)
   || (c =? 65279))%N.                (* U+FEFF *)

Fixpoint trimStart (s : jsstring) : jsstring :=
  match s with
  | [] => []
  | c :: r => if is_white_space c then trimStart r else s
  end.

Definition trimEnd (s : jsstring) : jsstring := rev (trimStart (rev s)).

(** [s.trim()] *)
Definition trim (s : jsstring) : jsstring := trimEnd (trimStart s).

(** [ToBoolean] on a string: only the empty string is falsy. *)
Definition truthy (s : jsstring) : bool :=
  match s with [] => false | _ :: _ => true end.

(** [String(n)] for a non-negative integer. *)
Definition of_N (n : N) : jsstring :=
  lit (NilEmpty.string_of_uint (N.to_uint n)).

(** "empty or whitespace-only" *)
Definition blank (s : jsstring) : bool := forallb is_white_space s.

End JS.

(* ===================================================================== *)
(** ** The component [InputTabs] (src/components/InputTabs.tsx)          *)
(* ===================================================================== *)

Module Controller.
Import JS.

(** *** Data model (lines 4-42) *)

Inductive Tab : Set := youtube | document.

Inductive ResultSection : Set := summarize | viral | recommendation.

Definition Tab_eqb (a b : Tab) : bool :=
  match a, b with
  | youtube, youtube | document, document => true
  | _, _ => false
  end.

Definition ResultSection_eqb (a b : ResultSection) : bool :=
  match a, b with
  | summarize, summarize | viral, viral | recommendation, recommendation => true
  | _, _ => false
  end.

(** [interface SummaryState]; [type] is ['youtube' | 'document' | null]. *)
Record SummaryState : Set := {
  isLoading : bool;
  showSummary : bool;
  type : option Tab
}.

(** [interface TimelineItem]. *)
Record TimelineItem : Set := {
  timestamp : jsstring;
  item_summary : jsstring          (* [summary] *)
}.

(** [AnalysisData.video_metadata]. A JSON [number] is carried as an integer:
    the handlers only store and hand on these fields. *)
Record VideoMetadata : Set := {
  title : jsstring;
  duration : Z;
  thumbnail_url : jsstring;
  channel_name : jsstring;
  view_count : option Z;
  published_at : option jsstring
}.

Record SuggestedStructure : Set := {
  hook : jsstring;
  introduction : jsstring;
  main_content : jsstring;
  call_to_action : jsstring
}.

Record Recommendations : Set := {
  rec_title : jsstring;            (* [title] *)
  target_audience : jsstring;
  content_style : jsstring;
  suggested_structure : SuggestedStructure;
  pro_tips : list jsstring;
  estimated_viral_score : Z
}.

(** [interface AnalysisData]. *)
Record AnalysisData : Set := {
  video_metadata : VideoMetadata;
  summary : jsstring;
  timeline_summary : list TimelineItem;
  viral_score : Z;
  viral_label : jsstring;
  viral_explanation : jsstring;
  recommendations : Recommendations
}.

(** The seven [useState] cells of the component (lines 45-55). Timeline
    indices are the array indices that [timeline_summary.map] hands to
    [toggleTimeline], hence naturals. *)
Record Component : Set := {
  activeTab : Tab;
  activeSection : ResultSection;
  summaryState : SummaryState;
  expandedTimeline : list nat;
  youtubeUrl : jsstring;
  analysisData : option AnalysisData;
  error : option jsstring
}.

(** The initial values given to [useState]. *)
Definition initial : Component := {|
  activeTab := youtube;
  activeSection := summarize;
  summaryState := {| isLoading := false; showSummary := false; type := None |};
  expandedTimeline := [0];
  youtubeUrl := [];
  analysisData := None;
  error := None
|}.

(** *** Effects of a handler

    A handler writes state cells, writes to the console and may throw; what
    it has written before a [throw] stays written. *)

Record JsError : Set := { err_name : jsstring; err_message : jsstring }.

(** [new Error(msg)] *)
Definition Error (msg : jsstring) : JsError :=
  {| err_name := lit "Error"; err_message := msg |}.

Record World : Set := {
  cells : Component;
  console : list (jsstring * JsError)      (* calls of [console.error] *)
}.

Definition Handler (A : Type) : Type := World -> (JsError + A) * World.

Definition ret {A} (a : A) : Handler A := fun w => (inr a, w).

Definition bind {A B} (m : Handler A) (k : A -> Handler B) : Handler B :=
  fun w => match m w with
           | (inr a, w') => k a w'
           | (inl e, w') => (inl e, w')
           end.

Definition throw {A} (e : JsError) : Handler A := fun w => (inl e, w).

(** [try { body } catch (err) { handler err }] *)
Definition try_catch {A} (body : Handler A) (handler : JsError -> Handler A) : Handler A :=
  fun w => match body w with
           | (inr a, w') => (inr a, w')
           | (inl e, w') => handler e w'
           end.

Declare Scope handler_scope.
Delimit Scope handler_scope with handler.
Bind Scope handler_scope with Handler.
Notation "x <- m ;; k" := (bind m (fun x => k))
  (at level 61, m at next level, right associativity) : handler_scope.
Notation "m ;; k" := (bind m (fun _ => k))
  (at level 61, right associativity) : handler_scope.
Local Open Scope handler_scope.

Definition update (f : Component -> Component) : Handler unit :=
  fun w => (inr tt, {| cells := f (cells w); console := console w |}).

Definition setActiveTab (t : Tab) : Handler unit :=
  update (fun c => {| activeTab := t; activeSection := activeSection c;
                      summaryState := summaryState c; expandedTimeline := expandedTimeline c;
                      youtubeUrl := youtubeUrl c; analysisData := analysisData c;
                      error := error c |}).

Definition setActiveSection (s : ResultSection) : Handler unit :=
  update (fun c => {| activeTab := activeTab c; activeSection := s;
                      summaryState := summaryState c; expandedTimeline := expandedTimeline c;
                      youtubeUrl := youtubeUrl c; analysisData := analysisData c;
                      error := error c |}).

Definition setSummaryState (v : SummaryState) : Handler unit :=
  update (fun c => {| activeTab := activeTab c; activeSection := activeSection c;
                      summaryState := v; expandedTimeline := expandedTimeline c;
                      youtubeUrl := youtubeUrl c; analysisData := analysisData c;
                      error := error c |}).

(** [setExpandedTimeline(prev => f prev)], the functional form the source uses. *)
Definition setExpandedTimeline (f : list nat -> list nat) : Handler unit :=
  update (fun c => {| activeTab := activeTab c; activeSection := activeSection c;
                      summaryState := summaryState c; expandedTimeline := f (expandedTimeline c);
                      youtubeUrl := youtubeUrl c; analysisData := analysisData c;
                      error := error c |}).

Definition setYoutubeUrl (v : jsstring) : Handler unit :=
  update (fun c => {| activeTab := activeTab c; activeSection := activeSection c;
                      summaryState := summaryState c; expandedTimeline := expandedTimeline c;
                      youtubeUrl := v; analysisData := analysisData c;
                      error := error c |}).

Definition setAnalysisData (v : option AnalysisData) : Handler unit :=
  update (fun c => {| activeTab := activeTab c; activeSection := activeSection c;
                      summaryState := summaryState c; expandedTimeline := expandedTimeline c;
                      youtubeUrl := youtubeUrl c; analysisData := v;
                      error := error c |}).

Definition setError (v : option jsstring) : Handler unit :=
  update (fun c => {| activeTab := activeTab c; activeSection := activeSection c;
                      summaryState := summaryState c; expandedTimeline := expandedTimeline c;
                      youtubeUrl := youtubeUrl c; analysisData := analysisData c;
                      error := v |}).

(** [console.error(label, err)] *)
Definition console_error (label : jsstring) (err : JsError) : Handler unit :=
  fun w => (inr tt, {| cells := cells w; console := console w ++ [(label, err)] |}).

(** *** The HTTP exchange (lines 67-80)

    The request is what the source hands to [fetch]. The body is kept as the
    value given to [JSON.stringify]. *)

#[warnings="-register-all"]
Inductive Json : Set :=
| JString (s : jsstring)
| JObject (members : list (jsstring * Json)).

Inductive Body : Set := JSON_stringify (v : Json).

Record Request : Set := {
  req_input : jsstring;                       (* first argument of [fetch] *)
  req_method : jsstring;
  req_headers : list (jsstring * jsstring);
  req_body : Body
}.

(** What the source reads of a [Response]: [status], [ok] and the settlement
    of [response.json()], which rejects on a body that is not JSON and else
    resolves to the value the source types as [AnalysisData]. A 2xx body
    that is JSON but not an [AnalysisData] object ([null], [{}]), which the
    source would store unchecked, has no counterpart here: what is proved of
    a parsed body is proved of bodies of that type, and nothing is proved of
    the state after an ill-typed one. *)
Record Response : Set := {
  status : N;
  json : JsError + AnalysisData
}.

(** [response.ok]: the status is in the range 200-299 (Fetch standard). *)
Definition ok (r : Response) : bool :=
  ((200 <=? status r) && (status r <=? 299))%N.

(** How the promise of [fetch] settles: rejected on a network failure,
    resolved with a response of any status otherwise. *)
Inductive FetchOutcome : Set :=
| Rejected (reason : JsError)
| Resolved (response : Response).

(** [await] on a settled promise: a rejection is thrown at the [await]. *)
Definition await_fetch (o : FetchOutcome) : Handler Response :=
  match o with
  | Rejected e => throw e
  | Resolved r => ret r
  end.

Definition await_json (r : Response) : Handler AnalysisData :=
  match json r with
  | inl e => throw e
  | inr d => ret d
  end.

(** An [async] handler either runs to its end in the click that started it,
    or issues a request and suspends; [resume] is the rest of the function,
    run when the exchange has settled. (The source awaits twice, on [fetch]
    and on [response.json()]; it touches no state cell between the two, so
    the two settlements are delivered together.) *)
Inductive Async : Type :=
| Finished
| AwaitFetch (req : Request) (resume : FetchOutcome -> Handler unit).

(** *** The handlers *)

(** [handleSubmit] (lines 57-89). [snap] holds the values of the render the
    handler was created in, which its closure reads ([activeTab],
    [youtubeUrl]); the setters write the live cells. *)
Definition handleSubmit (snap : Component) : Handler Async :=
  if Tab_eqb (activeTab snap) youtube && negb (truthy (trim (youtubeUrl snap))) then
    setError (Some (lit "Please enter a YouTube URL")) ;;
    ret Finished
  else
    setError None ;;
    setSummaryState {| isLoading := true; showSummary := false; type := Some (activeTab snap) |} ;;
    ret (AwaitFetch
           {| req_input := lit "http://localhost:8000/api/analyze";
              req_method := lit "POST";
              req_headers := [(lit "Content-Type", lit "application/json")];
              req_body := JSON_stringify (JObject [(lit "youtube_url", JString (youtubeUrl snap))]) |}
           (fun settled =>
              try_catch
                (response <- await_fetch settled ;;
                 (if negb (ok response)
                  then throw (Error (lit "HTTP error! status: " ++ of_N (status response)))
                  else ret tt) ;;
                 data <- await_json response ;;
                 setAnalysisData (Some data) ;;
                 setSummaryState {| isLoading := false; showSummary := true;
                                    type := Some (activeTab snap) |})
                (fun err =>
                   console_error (lit "Analysis error:") err ;;
                   setError (Some (lit "Failed to analyze content. Please check your connection and try again.")) ;;
                   setSummaryState {| isLoading := false; showSummary := false; type := None |}))).

(** [handleBack] (lines 91-96). *)
Definition handleBack : Handler unit :=
  setSummaryState {| isLoading := false; showSummary := false; type := None |} ;;
  setActiveSection summarize ;;
  setAnalysisData None ;;
  setError None.

(** [prev.includes(index)] *)
Definition includes (l : list nat) (index : nat) : bool :=
  existsb (fun i => i =? index) l.

(** [toggleTimeline] (lines 98-104). *)
Definition toggleTimeline (index : nat) : Handler unit :=
  setExpandedTimeline
    (fun prev =>
       if includes prev index
       then filter (fun i => negb (i =? index)) prev
       else prev ++ [index]).

(** *** What the render function shows (lines 118-467) *)

Definition isSome {A} (o : option A) : bool :=
  match o with Some _ => true | None => false end.

Inductive View : Set := Idle | Loading | Result.

(** Line 118 chooses the result display when [summaryState.showSummary &&
    analysisData]; otherwise line 421 chooses between the spinner and the
    input form on [summaryState.isLoading]. *)
Definition view (c : Component) : View :=
  if showSummary (summaryState c) && isSome (analysisData c) then Result
  else if isLoading (summaryState c) then Loading
  else Idle.

Definition View_eqb (a b : View) : bool :=
  match a, b with
  | Idle, Idle | Loading, Loading | Result, Result => true
  | _, _ => false
  end.

(** One row of the timeline list (lines 200-222): the timestamp on the
    button, whether the row is drawn expanded, and the summary text that is
    rendered only when it is. *)
Record Row : Set := {
  row_timestamp : jsstring;
  row_expanded : bool;
  row_text : option jsstring
}.

Definition render_row (expanded : list nat) (index : nat) (item : TimelineItem) : Row :=
  {| row_timestamp := timestamp item;
     row_expanded := includes expanded index;
     row_text := if includes expanded index then Some (item_summary item) else None |}.

Fixpoint render_rows_from (expanded : list nat) (index : nat) (items : list TimelineItem) : list Row :=
  match items with
  | [] => []
  | item :: rest => render_row expanded index item :: render_rows_from expanded (S index) rest
  end.

(** [analysisData.timeline_summary.map((item, index) => ...)] *)
Definition render_rows (c : Component) : list Row :=
  match analysisData c with
  | Some d => render_rows_from (expandedTimeline c) 0 (timeline_summary d)
  | None => []
  end.

(** *** The component as a machine

    A configuration is the world, the suspended [handleSubmit] if there is
    one, and the requests sent so far. An event is a user action on a control
    that the current render shows, or the settlement of the pending
    exchange. *)

Record Config : Type := {
  world : World;
  inflight : option (FetchOutcome -> Handler unit);
  sent : list Request
}.

Inductive Event : Set :=
| ClickTab (t : Tab)                 (* lines 396, 407 *)
| ChangeUrl (v : jsstring)           (* line 438 *)
| ClickSubmit                        (* lines 442, 457 *)
| Settle (o : FetchOutcome)          (* the awaited exchange settles *)
| ClickSection (s : ResultSection)   (* lines 125, 136, 147 *)
| ClickTimeline (index : nat)        (* line 203 *)
| ClickBack                          (* line 227 *)
| ChooseFiles (files : list jsstring). (* the file input of line 455 *)

Definition mounted : Config :=
  {| world := {| cells := initial; console := [] |}; inflight := None; sent := [] |}.

Definition now (c : Config) : Component := cells (world c).

Definition after (h : Handler unit) (c : Config) : Config :=
  {| world := snd (h (world c)); inflight := inflight c; sent := sent c |}.

Definition timeline_length (c : Component) : nat :=
  match analysisData c with
  | Some d => List.length (timeline_summary d)
  | None => 0
  end.

(** [step c ev] is [None] when the control of [ev] is not on screen in [c]
    (or no exchange is pending, for [Settle]). *)
Definition step (c : Config) (ev : Event) : option Config :=
  match ev with
  | ClickTab t =>
      match view (now c) with
      | Result => None
      | _ => Some (after (setActiveTab t) c)
      end
  | ChangeUrl v =>
      if View_eqb (view (now c)) Idle && Tab_eqb (activeTab (now c)) youtube
      then Some (after (setYoutubeUrl v) c) else None
  | ClickSubmit =>
      if View_eqb (view (now c)) Idle then
        match handleSubmit (now c) (world c) with
        | (inr (AwaitFetch req resume), w) =>
            Some {| world := w; inflight := Some resume; sent := sent c ++ [req] |}
        | (_, w) =>
            Some {| world := w; inflight := inflight c; sent := sent c |}
        end
      else None
  | Settle o =>
      match inflight c with
      | Some resume =>
          Some {| world := snd (resume o (world c)); inflight := None; sent := sent c |}
      | None => None
      end
  | ClickSection s =>
      if View_eqb (view (now c)) Result
      then Some (after (setActiveSection s) c) else None
  | ClickTimeline index =>
      if View_eqb (view (now c)) Result
         && ResultSection_eqb (activeSection (now c)) summarize
         && (index <? timeline_length (now c))
      then Some (after (toggleTimeline index) c) else None
  | ClickBack =>
      if View_eqb (view (now c)) Result
         && ResultSection_eqb (activeSection (now c)) summarize
      then Some (after handleBack c) else None
  | ChooseFiles _ =>
      (* the input is uncontrolled and has no [onChange]: no cell is written *)
      if View_eqb (view (now c)) Idle && Tab_eqb (activeTab (now c)) document
      then Some c else None
  end.

Fixpoint run (c : Config) (events : list Event) : option Config :=
  match events with
  | [] => Some c
  | ev :: rest =>
      match step c ev with
      | Some c' => run c' rest
      | None => None
      end
  end.

(** The configurations the mounted component can get into. *)
Definition reachable (c : Config) : Prop :=
  exists events, run mounted events = Some c.

(** *** Notions used to state the properties *)

(** The exception that the [try] block of [handleSubmit] ends with, if it
    ends with one: the rejection of [fetch], the [Error] thrown at line 78 on
    a response that is not [ok], or the rejection of [response.json()]. *)
Definition caught (o : FetchOutcome) : option JsError :=
  match o with
  | Rejected e => Some e
  | Resolved r =>
      if ok r then match json r with inl e => Some e | inr _ => None end
      else Some (Error (lit "HTTP error! status: " ++ of_N (status r)))
  end.

(** The request the properties speak of: a POST to [/api/analyze] whose JSON
    body has the one member [youtube_url]. *)
Definition post_analyze (youtube_url : jsstring) : Request :=
  {| req_input := lit "http://localhost:8000/api/analyze";
     req_method := lit "POST";
     req_headers := [(lit "Content-Type", lit "application/json")];
     req_body := JSON_stringify (JObject [(lit "youtube_url", JString youtube_url)]) |}.


(** An exchange is pending. *)
Definition pending (c : Config) : bool := isSome (inflight c).

(** What holds of every configuration the component gets into. *)
Record Inv (c : Config) : Prop := {
  inv_result : showSummary (summaryState (now c)) = isSome (analysisData (now c));
  inv_loading : isLoading (summaryState (now c)) = true ->
                showSummary (summaryState (now c)) = false;
  inv_pending : isLoading (summaryState (now c)) = pending c;
  inv_section : showSummary (summaryState (now c)) = false ->
                activeSection (now c) = summarize;
  inv_resume : forall resume, inflight c = Some resume ->
               exists snap w req w', handleSubmit snap w = (inr (AwaitFetch req resume), w');
  inv_sent : Forall (fun req => exists u, req = post_analyze u) (sent c)
}.

(** No [toggleTimeline] among the events. *)
Definition untoggled (events : list Event) : bool :=
  forallb (fun ev => match ev with ClickTimeline _ => false | _ => true end) events.

End Controller.

(* ===================================================================== *)
(** ** A scenario: one video, a five-item timeline                       *)
(* ===================================================================== *)

Module Scenario.
Import JS Controller.

Definition url : jsstring := lit "https://youtube.com/watch?v=abc".

Definition item (ts text : string) : TimelineItem :=
  {| timestamp := lit ts; item_summary := lit text |}.

Definition five_items : list TimelineItem := [
  item "00:00 - 01:00" "Introduction";
  item "01:00 - 02:30" "Supervised learning";
  item "02:30 - 04:00" "Practical examples";
  item "04:00 - 05:15" "Unsupervised learning";
  item "05:15 - 06:30" "Best practices"
].

Definition data : AnalysisData := {|
  video_metadata := {| title := lit "Machine learning"; duration := 390;
                       thumbnail_url := lit "https://img.youtube.com/vi/abc/0.jpg";
                       channel_name := lit "Channel"; view_count := Some 1000%Z;
                       published_at := None |};
  summary := lit "A summary string";
  timeline_summary := five_items;
  viral_score := 85;
  viral_label := lit "High";
  viral_explanation := lit "Clear structure";
  recommendations := {| rec_title := lit "Idea"; target_audience := lit "Beginners";
                        content_style := lit "Tutorial";
                        suggested_structure := {| hook := lit "Hook"; introduction := lit "Intro";
                                                  main_content := lit "Main";
                                                  call_to_action := lit "Subscribe" |};
                        pro_tips := [lit "Be brief"]; estimated_viral_score := 80 |}
|}.

Definition response_200 : FetchOutcome :=
  Resolved {| status := 200; json := inr data |}.



(** A component in which the user has typed blanks only. *)
Definition blank_form : Config :=
  {| world := {| cells := {| activeTab := youtube; activeSection := summarize;
                             summaryState := {| isLoading := false; showSummary := false;
                                                type := None |};
                             expandedTimeline := [0]; youtubeUrl := lit "   ";
                             analysisData := None; error := None |};
                 console := [] |};
     inflight := None; sent := [] |}.

Definition or_mounted (o : option Config) : Config :=
  match o with Some c => c | None => mounted end.

(** The user pastes the URL and starts the analysis. *)
Definition submitted : list Event := [ChangeUrl url; ClickSubmit].

Definition loading : Config := or_mounted (run mounted submitted).

(** On the document tab, with nothing in the URL field and two files chosen. *)
Definition document_form : Config :=
  or_mounted (run mounted [ClickTab document; ChooseFiles [lit "a.pdf"; lit "b.docx"]]).

(** A first analysis in which the user collapses row 0 and opens row 2, the
    way back, and the start of a second analysis. *)
Definition second_analysis : list Event :=
  [ChangeUrl url; ClickSubmit; Settle response_200;
   ClickTimeline 0; ClickTimeline 2; ClickBack; ClickSubmit].

Definition second_loading : Config := or_mounted (run mounted second_analysis).

Definition second_result : Config :=
  or_mounted (step second_loading (Settle response_200)).

(** Two analyses with the timeline left alone. *)
Definition two_plain_analyses : list Event :=
  [ChangeUrl url; ClickSubmit; Settle response_200;
   ClickSection viral; ClickSection summarize; ClickBack;
   ClickSubmit; Settle response_200].

Definition plain_result : Config := or_mounted (run mounted two_plain_analyses).

End Scenario.

(* ===================================================================== *)
(** ** The summariser stub (api/services/summarizer.py)                  *)
(* ===================================================================== *)

Module Summarizer.
Local Open Scope string_scope.

(** *** Python strings

    The literals of the service are ASCII; a [str] is carried as a Rocq
    string, one character per code point. *)

Definition newline : string := String (ascii_of_nat 10) EmptyString.

(** [str.isspace] on the code points below 256. *)
Definition isspace (c : ascii) : bool :=
  let n := nat_of_ascii c in
  ((9 <=? n) && (n <=? 13) || (28 <=? n) && (n <=? 32) || (n =? 133) || (n =? 160))%nat.

Fixpoint lstrip (s : string) : string :=
  match s with
  | EmptyString => EmptyString
  | String c r => if isspace c then lstrip r else s
  end.

Fixpoint rstrip (s : string) : string :=
  match s with
  | EmptyString => EmptyString
  | String c r =>
      match rstrip r with
      | EmptyString => if isspace c then EmptyString else String c EmptyString
      | r' => String c r'
      end
  end.

(** [s.strip()] *)
Definition strip (s : string) : string := rstrip (lstrip s).

(** *** Exceptions and logging *)

(** A raised exception: its class, whether that class derives from
    [Exception] (as opposed to [BaseException] only, like
    [KeyboardInterrupt]), and [str(e)]. *)
Record PyExc : Set := {
  exc_class : string;
  is_Exception : bool;
  str : string
}.

(** [Exception(msg)] *)
Definition Exception (msg : string) : PyExc :=
  {| exc_class := "Exception"; is_Exception := true; str := msg |}.

Inductive Level : Set := INFO | ERROR.

(** The records handed to the module's logger so far. *)
Definition Log : Set := list (Level * string).

Definition Py (A : Type) : Type := Log -> (PyExc + A) * Log.

Definition ret {A} (a : A) : Py A := fun l => (inr a, l).

Definition bind {A B} (m : Py A) (k : A -> Py B) : Py B :=
  fun l => match m l with
           | (inr a, l') => k a l'
           | (inl e, l') => (inl e, l')
           end.

Definition raise {A} (e : PyExc) : Py A := fun l => (inl e, l).

(** [try: body / except Exception as e: handler e]: an exception that does
    not derive from [Exception] passes through. *)
Definition try_except_Exception {A} (body : Py A) (handler : PyExc -> Py A) : Py A :=
  fun l => match body l with
           | (inr a, l') => (inr a, l')
           | (inl e, l') => if is_Exception e then handler e l' else (inl e, l')
           end.

Declare Scope py_scope.
Delimit Scope py_scope with py.
Bind Scope py_scope with Py.
Notation "m ;; k" := (bind m (fun _ => k))
  (at level 61, right associativity) : py_scope.

(** The module global [logger = logging.getLogger(__name__)], as far as the
    service uses it. The calls are the only ones inside the [try] blocks that
    run foreign code, so the interface lets them raise. *)
Class Logger : Type := {
  info : string -> Py unit;
  error : string -> Py unit
}.

(** The logger of the standard library: it records and returns. *)
Definition logging_getLogger : Logger := {|
  info := fun msg l => (inr tt, (l ++ [(INFO, msg)])%list);
  error := fun msg l => (inr tt, (l ++ [(ERROR, msg)])%list)
|}.

(** *** Data *)

(** Modelled from the spec: the class [TimelineItem] of [models.schemas],
    which the service imports and which is not among the sources, is the
    spec's [TimelineItem{timestamp: string, summary: string}]. *)
Record TimelineItem : Set := TimelineItem_ {
  timestamp : string;
  summary : string
}.

(** [SummarizerService.__init__] reads the two keys from the environment. *)
Record SummarizerService : Set := {
  gemini_api_key : option string;
  openai_api_key : option string
}.

Section Service.
Context {logger : Logger}.
Local Open Scope py_scope.

(** The literal bound to [mock_summary]. *)
Definition mock_summary : string :=
  newline ++ "            This comprehensive guide explores the fundamental concepts of machine learning, covering supervised and "
  ++ newline ++ "            unsupervised learning techniques, model evaluation, and practical applications in real-world scenarios. "
  ++ newline ++ "            The video provides clear explanations of key algorithms like linear regression and decision trees, "
  ++ newline ++ "            while emphasizing best practices for avoiding common pitfalls like overfitting and underfitting."
  ++ newline ++ "            ".

(** [async def generate_summary(self, transcript: str) -> str] *)
Definition generate_summary (self : SummarizerService) (transcript : string) : Py string :=
  try_except_Exception
    (info "Generating overall summary" ;;
     ret (strip mock_summary))
    (fun e =>
       error ("Error generating summary: " ++ str e) ;;
       raise (Exception ("Failed to generate summary: " ++ str e))).

(** The list bound to [mock_timeline]. *)
Definition mock_timeline : list TimelineItem := [
  TimelineItem_ "00:00 - 01:00"
    "Introduction to machine learning concepts and why they matter in today's technology landscape.";
  TimelineItem_ "01:00 - 02:30"
    "Deep dive into supervised learning algorithms including linear regression and decision trees.";
  TimelineItem_ "02:30 - 04:00"
    "Practical examples of implementing basic ML models using Python and popular libraries.";
  TimelineItem_ "04:00 - 05:15"
    "Discussion of unsupervised learning techniques and clustering algorithms.";
  TimelineItem_ "05:15 - 06:30"
    "Best practices for model evaluation, cross-validation, and avoiding overfitting."
].

(** [async def generate_timeline_summary(self, transcript: str,
    duration_seconds: int) -> List[TimelineItem]] *)
Definition generate_timeline_summary (self : SummarizerService) (transcript : string)
    (duration_seconds : Z) : Py (list TimelineItem) :=
  try_except_Exception
    (info "Generating timeline summary" ;;
     ret mock_timeline)
    (fun e =>
       error ("Error generating timeline summary: " ++ str e) ;;
       raise (Exception ("Failed to generate timeline summary: " ++ str e))).

End Service.

(** *** Scenarios *)

Definition service : SummarizerService :=
  {| gemini_api_key := None; openai_api_key := None |}.

(** [KeyboardInterrupt()], which derives from [BaseException] only. *)
Definition KeyboardInterrupt : PyExc :=
  {| exc_class := "KeyboardInterrupt"; is_Exception := false; str := EmptyString |}.

(** [ValueError(msg)], which derives from [Exception]. *)
Definition ValueError (msg : string) : PyExc :=
  {| exc_class := "ValueError"; is_Exception := true; str := msg |}.

(** A logger in which [info] is interrupted by [e]; [error] records. *)
Definition raising_logger (e : PyExc) : Logger := {|
  info := fun _ => raise e;
  error := fun msg l => (inr tt, (l ++ [(ERROR, msg)])%list)
|}.

(** The paragraph that [generate_summary] is said to return. *)
Definition fixed_paragraph : string :=
  "This comprehensive guide explores the fundamental concepts of machine learning, covering supervised and "
  ++ newline ++ "            unsupervised learning techniques, model evaluation, and practical applications in real-world scenarios. "
  ++ newline ++ "            The video provides clear explanations of key algorithms like linear regression and decision trees, "
  ++ newline ++ "            while emphasizing best practices for avoiding common pitfalls like overfitting and underfitting.".

End Summarizer.

(* ===================================================================== *)
(** ** The display helpers of the component (lines 112-116, 179-182)     *)
(* ===================================================================== *)

Module Display.
Import JS Controller.

(** [String(z)] for an integer, as a template literal and [toString]
    produce it. *)
Definition of_Z (z : Z) : jsstring :=
  match z with
  | Z0 => of_N 0
  | Zpos p => of_N (Npos p)
  | Zneg p => lit "-" ++ of_N (Npos p)
  end.

(** [s.padStart(targetLength, padString)]: nothing is added when [s] is long
    enough or [padString] is empty; else [padString] is repeated and cut to
    the missing length. *)
Definition padStart (targetLength : nat) (padString s : jsstring) : jsstring :=
  if (targetLength <=? List.length s)%nat || negb (truthy padString) then s
  else
    let fillLen := (targetLength - List.length s)%nat in
    firstn fillLen (List.concat (repeat padString fillLen)) ++ s.

(** [Number.MAX_SAFE_INTEGER], 2^53 - 1: up to it the integers are
    binary64 numbers, and the arithmetic of [formatDuration] on them is
    exact. *)
Definition MAX_SAFE_INTEGER : Z := 9007199254740991.

(** [formatDuration] (lines 112-116), on an integer number of seconds
    between [- MAX_SAFE_INTEGER] and [MAX_SAFE_INTEGER]: there
    [Math.floor(seconds / 60)] is the quotient rounded down, [%] the
    remainder with the sign of the dividend, and the digits written are
    those of the integers. Beyond that range the source computes on rounded
    numbers, and this definition does not follow it. *)
Definition formatDuration (seconds : Z) : jsstring :=
  let minutes := (seconds / 60)%Z in
  let remainingSeconds := Z.rem seconds 60 in
  of_Z minutes ++ lit ":" ++ padStart 2 (lit "0") (of_Z remainingSeconds).

(** The value of a JSX expression placed among the children of an element,
    and the text React puts on screen for it: nothing for [undefined], the
    digits for a number, the string itself for a string. *)
Inductive Child : Set :=
| CUndefined
| CNumber (n : Z)
| CString (s : jsstring).

Definition child_text (c : Child) : jsstring :=
  match c with
  | CUndefined => []
  | CNumber n => of_Z n
  | CString s => s
  end.

Section Locale.
(** [Number.prototype.toLocaleString], which depends on the locale of the
    browser. *)
Variable toLocaleString : Z -> jsstring.

(** Line 181: [view_count && `...${view_count.toLocaleString()} views`];
    the template starts with the code units U+0020 U+00E2 U+20AC U+00A2
    U+0020 of the source text. [&&] yields its left operand when that is
    falsy ([undefined], [0]). *)
Definition view_count_child (m : VideoMetadata) : Child :=
  match view_count m with
  | None => CUndefined
  | Some n =>
      if (n =? 0)%Z then CNumber n
      else CString ([32; 226; 8364; 162; 32]%N ++ toLocaleString n ++ lit " views")
  end.

(** The paragraph of lines 179-182: the channel name, then the child. *)
Definition channel_line (m : VideoMetadata) : jsstring :=
  channel_name m ++ child_text (view_count_child m).

End Locale.

(** A decimal digit, as a code unit. *)
Definition is_digit (c : code_unit) : bool := ((48 <=? c) && (c <=? 57))%N.

(** The number that a run of decimal digits writes. *)
Definition digits_value (s : jsstring) : Z :=
  fold_left (fun acc c => (acc * 10 + (Z.of_N c - 48))%Z) s 0%Z.

End Display.

(* ===================================================================== *)
(** ** Further notions about the machine                                 *)
(* ===================================================================== *)

Module Machine.
Import JS Controller.

(** The spinner or the result display is on. *)
Definition busy (s : Component) : bool :=
  isLoading (summaryState s) || showSummary (summaryState s).

(** More of what holds of every configuration the component gets into. *)
Record Inv2 (c : Config) : Prop := {
  inv_type : isSome (type (summaryState (now c))) = busy (now c);
  inv_error : busy (now c) = true -> error (now c) = None;
  inv_last : busy (now c) = true ->
             exists earlier, sent c = earlier ++ [post_analyze (youtubeUrl (now c))];
  inv_nodup : NoDup (expandedTimeline (now c))
}.

Definition is_settle (ev : Event) : bool :=
  match ev with Settle _ => true | _ => false end.

(** The number of settlements among the events. *)
Definition count_settles (events : list Event) : nat :=
  List.length (filter is_settle events).

Definition outstanding (c : Config) : nat := if pending c then 1 else 0.

(** The user pastes the URL with blanks around it. *)
Definition padded_url : jsstring := lit "  https://youtube.com/watch?v=abc ".

Definition padded_form : Config :=
  Scenario.or_mounted (run mounted [ChangeUrl padded_url]).

(** A submission from the YouTube tab, the switch to the other tab while the
    spinner is on, and the answer. *)
Definition switched_while_loading : Config :=
  Scenario.or_mounted
    (run mounted [ChangeUrl Scenario.url; ClickSubmit; ClickTab document;
                  Settle Scenario.response_200]).

(** A first analysis in which the user collapses row 0 and opens row 2. *)
Definition first_analysis_toggled : list Event :=
  [ChangeUrl Scenario.url; ClickSubmit; Settle Scenario.response_200;
   ClickTimeline 0; ClickTimeline 2].

Definition toggled_result : Config :=
  Scenario.or_mounted (run mounted first_analysis_toggled).

(** The way back and a second analysis. *)
Definition back_and_again : list Event :=
  [ClickBack; ClickSubmit; Settle Scenario.response_200].

Definition second_result_again : Config :=
  Scenario.or_mounted (run toggled_result back_and_again).



(** The result display, switched to the viral section. *)
Definition viral_section : Config :=
  Scenario.or_mounted
    (run mounted [ChangeUrl Scenario.url; ClickSubmit; Settle Scenario.response_200;
                  ClickSection viral]).

End Machine.

(* ===================================================================== *)
(** ** Further loggers                                                   *)
(* ===================================================================== *)

Module Loggers.
Import Summarizer.
Local Open Scope string_scope.

(** [OSError(msg)], which derives from [Exception]. *)
Definition OSError (msg : string) : PyExc :=
  {| exc_class := "OSError"; is_Exception := true; str := msg |}.

(** [SystemExit()], which derives from [BaseException] only. *)
Definition SystemExit : PyExc :=
  {| exc_class := "SystemExit"; is_Exception := false; str := EmptyString |}.

(** A logger in which [info] raises [e] and [error] raises [e2], as when
    the log file cannot be written. *)
Definition broken_logger (e e2 : PyExc) : Logger := {|
  info := fun _ => raise e;
  error := fun _ => raise e2
|}.

End Loggers.

(* ===================================================================== *)
(** ** Facts about [trim]                                                *)
(* ===================================================================== *)

Module JSFacts.
Import JS.

Lemma trimStart_blank (s : jsstring) :
  blank s = true -> trimStart s = [].
Proof.
  induction s as [|c r IH]; simpl; [reflexivity|].
  intros H. apply andb_true_iff in H as [Hc Hr].
  rewrite Hc. auto.
Qed.

Lemma trimStart_nil_blank (s : jsstring) :
  trimStart s = [] -> blank s = true.
Proof.
  induction s as [|c r IH]; simpl; [reflexivity|].
  destruct (is_white_space c); [auto | discriminate].
Qed.

Lemma trimStart_suffix (s : jsstring) :
  exists p, s = p ++ trimStart s /\ blank p = true.
Proof.
  induction s as [|c r [p [Hp Hb]]]; simpl.
  - exists []. split; reflexivity.
  - destruct (is_white_space c) eqn:E.
    + exists (c :: p). simpl. rewrite E, Hb. split; [congruence | reflexivity].
    + exists []. split; reflexivity.
Qed.

Lemma blank_app (s t : jsstring) :
  blank (s ++ t) = blank s && blank t.
Proof. apply forallb_app. Qed.

Lemma blank_rev (s : jsstring) : blank (rev s) = blank s.
Proof.
  induction s as [|c r IH]; simpl; [reflexivity|].
  rewrite blank_app, IH. simpl. rewrite andb_true_r. apply andb_comm.
Qed.

(** The guard of the source, [!youtubeUrl.trim()], is exactly the test
    "empty or whitespace-only". *)
Lemma trim_falsy_iff_blank (s : jsstring) :
  truthy (trim s) = false <-> blank s = true.
Proof.
  unfold trim, trimEnd. split.
  - intros H.
    assert (E : rev (trimStart (rev (trimStart s))) = []).
    { destruct (rev (trimStart (rev (trimStart s)))); [reflexivity | discriminate]. }
    apply (f_equal (@rev _)) in E. rewrite rev_involutive in E. simpl in E.
    apply trimStart_nil_blank in E. rewrite blank_rev in E.
    destruct (trimStart_suffix s) as [p [Hp Hb]].
    rewrite Hp, blank_app, Hb, E. reflexivity.
  - intros H. rewrite (trimStart_blank s H). reflexivity.
Qed.

End JSFacts.

(* ===================================================================== *)
(** ** Properties of the component                                       *)
(* ===================================================================== *)

Module ControllerFacts.
Import JS JSFacts Controller.

(** *** [handleBack] *)

(** C4. For every controller state, [handleBack] yields a state in Idle with
    no residual result data: [isLoading] false, [showSummary] false, [type]
    null, [analysisData] null, [error] null, and [activeSection] reset to
    ['summarize'], whichever section was active before. *)
Theorem handleBack_resets :
  forall w : World,
    let w' := snd (handleBack w) in
    fst (handleBack w) = inr tt
    /\ summaryState (cells w') = {| isLoading := false; showSummary := false; type := None |}
    /\ analysisData (cells w') = None
    /\ error (cells w') = None
    /\ activeSection (cells w') = summarize
    /\ view (cells w') = Idle
    /\ render_rows (cells w') = [].
Proof.
  intros w. cbn. repeat split; reflexivity.
Qed.

(** *** [toggleTimeline] *)

Lemma includes_app (l1 l2 : list nat) (j : nat) :
  includes (l1 ++ l2) j = includes l1 j || includes l2 j.
Proof. unfold includes. apply existsb_app. Qed.

Lemma includes_filter (l : list nat) (i j : nat) :
  includes (filter (fun k => negb (k =? i)) l) j = includes l j && negb (j =? i).
Proof.
  induction l as [|k l IH]; simpl; [reflexivity|].
  destruct (Nat.eqb_spec k i) as [->|Hki]; simpl.
  - rewrite IH. destruct (Nat.eqb_spec i j) as [->|Hij]; simpl.
    + rewrite Nat.eqb_refl. simpl. rewrite andb_false_r. reflexivity.
    + reflexivity.
  - rewrite IH. destruct (Nat.eqb_spec k j) as [->|Hkj]; simpl; [|reflexivity].
    destruct (Nat.eqb_spec j i); [contradiction | reflexivity].
Qed.

Lemma toggleTimeline_cells (index : nat) (w : World) :
  expandedTimeline (cells (snd (toggleTimeline index w))) =
    if includes (expandedTimeline (cells w)) index
    then filter (fun i => negb (i =? index)) (expandedTimeline (cells w))
    else expandedTimeline (cells w) ++ [index].
Proof. reflexivity. Qed.

Lemma toggle_includes (index j : nat) (w : World) :
  includes (expandedTimeline (cells (snd (toggleTimeline index w)))) j =
    if j =? index then negb (includes (expandedTimeline (cells w)) index)
    else includes (expandedTimeline (cells w)) j.
Proof.
  rewrite toggleTimeline_cells.
  destruct (includes (expandedTimeline (cells w)) index) eqn:E.
  - rewrite includes_filter. destruct (Nat.eqb_spec j index) as [->|Hj]; simpl.
    + apply andb_false_r.
    + apply andb_true_r.
  - rewrite includes_app. simpl. rewrite orb_false_r.
    rewrite (Nat.eqb_sym index j).
    destruct (Nat.eqb_spec j index) as [->|Hj]; simpl.
    + rewrite E. reflexivity.
    + apply orb_false_r.
Qed.

Lemma render_rows_from_ext (e1 e2 : list nat) (items : list TimelineItem) :
  (forall j, includes e1 j = includes e2 j) ->
  forall n, render_rows_from e1 n items = render_rows_from e2 n items.
Proof.
  intros H. induction items as [|it items IH]; intros n; simpl; [reflexivity|].
  unfold render_row. rewrite (H n), IH. reflexivity.
Qed.

(** C5. For every expanded-timeline set and every pair of indices [i], [j]:
    [toggleTimeline i] applied twice restores the membership of every index,
    so the rows render as before; and [toggleTimeline i] does not change
    whether [j], different from [i], is expanded. *)
Theorem toggleTimeline_twice_and_apart :
  forall (w : World) (i j : nat),
    let w1 := snd (toggleTimeline i w) in
    let w2 := snd (toggleTimeline i w1) in
    includes (expandedTimeline (cells w2)) j = includes (expandedTimeline (cells w)) j
    /\ render_rows (cells w2) = render_rows (cells w)
    /\ (j <> i ->
        includes (expandedTimeline (cells w1)) j = includes (expandedTimeline (cells w)) j).
Proof.
  intros w i j w1 w2.
  assert (twice : forall k, includes (expandedTimeline (cells w2)) k
                            = includes (expandedTimeline (cells w)) k).
  { intros k. unfold w2, w1. rewrite !toggle_includes, Nat.eqb_refl.
    destruct (Nat.eqb_spec k i) as [->|Hk]; [apply negb_involutive | reflexivity]. }
  split; [apply twice|]. split.
  - unfold render_rows.
    replace (analysisData (cells w2)) with (analysisData (cells w)) by reflexivity.
    destruct (analysisData (cells w)); [|reflexivity].
    apply render_rows_from_ext, twice.
  - intros Hji. unfold w1. rewrite toggle_includes.
    destruct (Nat.eqb_spec j i); [contradiction | reflexivity].
Qed.

(** An instance of C5: collapsing and re-expanding row 0 of the mounted
    component, watched at row 1. *)
Lemma toggleTimeline_twice_and_apart_witness :
  let w := world mounted in
  let w1 := snd (toggleTimeline 0 w) in
  let w2 := snd (toggleTimeline 0 w1) in
  includes (expandedTimeline (cells w2)) 1 = includes (expandedTimeline (cells w)) 1
  /\ render_rows (cells w2) = render_rows (cells w)
  /\ includes (expandedTimeline (cells w1)) 1 = includes (expandedTimeline (cells w)) 1.
Proof.
  destruct (toggleTimeline_twice_and_apart (world mounted) 0 1) as [H1 [H2 H3]].
  split; [exact H1 | split; [exact H2 | apply H3; discriminate]].
Defined.

(** *** [handleSubmit] *)

Ltac handler_steps :=
  cbv [bind ret throw try_catch update await_fetch await_json console_error
       setActiveTab setActiveSection setSummaryState setExpandedTimeline
       setYoutubeUrl setAnalysisData setError].

(** The validation branch (lines 58-61). *)
Lemma handleSubmit_rejects (snap : Component) (w : World) :
  activeTab snap = youtube -> blank (youtubeUrl snap) = true ->
  handleSubmit snap w =
    (inr Finished, snd (setError (Some (lit "Please enter a YouTube URL")) w)).
Proof.
  intros Htab Hblank. unfold handleSubmit.
  apply trim_falsy_iff_blank in Hblank. rewrite Htab, Hblank. reflexivity.
Qed.

(** The other branch (lines 63-75): the request goes out. *)
Lemma handleSubmit_sends (snap : Component) (w : World) :
  Tab_eqb (activeTab snap) youtube && negb (truthy (trim (youtubeUrl snap))) = false ->
  exists resume,
    handleSubmit snap w =
      (inr (AwaitFetch (post_analyze (youtubeUrl snap)) resume),
       snd (setSummaryState {| isLoading := true; showSummary := false;
                               type := Some (activeTab snap) |}
              (snd (setError None w)))).
Proof.
  intros Hguard. unfold handleSubmit. rewrite Hguard.
  eexists. reflexivity.
Qed.

Lemma handleSubmit_await_inv (snap : Component) (w w' : World) (req : Request)
    (resume : FetchOutcome -> Handler unit) :
  handleSubmit snap w = (inr (AwaitFetch req resume), w') ->
  Tab_eqb (activeTab snap) youtube && negb (truthy (trim (youtubeUrl snap))) = false
  /\ req = post_analyze (youtubeUrl snap)
  /\ w' = snd (setSummaryState {| isLoading := true; showSummary := false;
                                  type := Some (activeTab snap) |}
                 (snd (setError None w))).
Proof.
  unfold handleSubmit.
  destruct (Tab_eqb (activeTab snap) youtube && negb (truthy (trim (youtubeUrl snap)))).
  - handler_steps. discriminate.
  - handler_steps. intros H. inversion H. repeat split.
Qed.

(** The continuation on a settlement that makes the [try] block throw
    (lines 84-88). *)
Lemma resume_caught (snap : Component) (w w' : World) (req : Request)
    (resume : FetchOutcome -> Handler unit) (o : FetchOutcome) (e : JsError) (w2 : World) :
  handleSubmit snap w = (inr (AwaitFetch req resume), w') ->
  caught o = Some e ->
  resume o w2 =
    (inr tt,
     snd (setSummaryState {| isLoading := false; showSummary := false; type := None |}
       (snd (setError (Some (lit "Failed to analyze content. Please check your connection and try again."))
          (snd (console_error (lit "Analysis error:") e w2)))))).
Proof.
  unfold handleSubmit.
  destruct (Tab_eqb (activeTab snap) youtube && negb (truthy (trim (youtubeUrl snap)))).
  - handler_steps. discriminate.
  - handler_steps. intros H. inversion H. subst. clear H.
    unfold caught. destruct o as [e0|r].
    + intros E. inversion E. subst. reflexivity.
    + destruct (ok r); simpl.
      * destruct (json r); intros E; inversion E. subst. reflexivity.
      * intros E. inversion E. subst. reflexivity.
Qed.

(** The continuation on a response that is [ok] and parses (lines 81-83). *)
Lemma resume_parsed (snap : Component) (w w' : World) (req : Request)
    (resume : FetchOutcome -> Handler unit) (r : Response) (d : AnalysisData) (w2 : World) :
  handleSubmit snap w = (inr (AwaitFetch req resume), w') ->
  ok r = true -> json r = inr d ->
  resume (Resolved r) w2 =
    (inr tt,
     snd (setSummaryState {| isLoading := false; showSummary := true;
                             type := Some (activeTab snap) |}
       (snd (setAnalysisData (Some d) w2)))).
Proof.
  unfold handleSubmit.
  destruct (Tab_eqb (activeTab snap) youtube && negb (truthy (trim (youtubeUrl snap)))).
  - handler_steps. discriminate.
  - handler_steps. intros H. inversion H. subst. clear H.
    intros Hok Hjson. rewrite Hok, Hjson. reflexivity.
Qed.

Lemma caught_None (o : FetchOutcome) :
  caught o = None -> exists r d, o = Resolved r /\ ok r = true /\ json r = inr d.
Proof.
  unfold caught. destruct o as [e|r]; [discriminate|].
  destruct (ok r) eqn:Hok; [|discriminate].
  destruct (json r) as [e|d] eqn:Hj; [discriminate|].
  intros _. exists r, d. auto.
Qed.

(** *** The invariant of the machine *)

Lemma Inv_mounted : Inv mounted.
Proof.
  constructor; cbn; try reflexivity; try discriminate; auto.
Qed.

Lemma view_Idle (s : Component) :
  view s = Idle ->
  isLoading (summaryState s) = false
  /\ showSummary (summaryState s) && isSome (analysisData s) = false.
Proof.
  unfold view.
  destruct (showSummary (summaryState s) && isSome (analysisData s)); [discriminate|].
  destruct (isLoading (summaryState s)); [discriminate|]. auto.
Qed.

Lemma view_Result (s : Component) :
  view s = Result ->
  showSummary (summaryState s) = true /\ isSome (analysisData s) = true.
Proof.
  unfold view.
  destruct (showSummary (summaryState s)), (isSome (analysisData s)); simpl; auto;
    destruct (isLoading (summaryState s)); discriminate.
Qed.

Lemma View_eqb_eq (a b : View) : View_eqb a b = true -> a = b.
Proof. destruct a, b; simpl; congruence. Qed.

Lemma Tab_eqb_eq (a b : Tab) : Tab_eqb a b = true -> a = b.
Proof. destruct a, b; simpl; congruence. Qed.

Lemma ResultSection_eqb_eq (a b : ResultSection) : ResultSection_eqb a b = true -> a = b.
Proof. destruct a, b; simpl; congruence. Qed.

(** A handler that leaves [summaryState], [analysisData] and
    [activeSection] alone keeps the invariant. *)
Lemma Inv_after_frame (h : Handler unit) (c : Config) :
  summaryState (cells (snd (h (world c)))) = summaryState (now c) ->
  analysisData (cells (snd (h (world c)))) = analysisData (now c) ->
  activeSection (cells (snd (h (world c)))) = activeSection (now c) ->
  Inv c -> Inv (after h c).
Proof.
  intros Hs Hd Ha [Ia Ib Ic Id Ie If].
  constructor; unfold now, pending, after in *; simpl;
    rewrite ?Hs, ?Hd, ?Ha; assumption.
Qed.

Lemma step_Inv (c c' : Config) (ev : Event) :
  Inv c -> step c ev = Some c' -> Inv c'.
Proof.
  intros HI Hstep. destruct ev as [t|v| |o|sec|index| |files]; simpl in Hstep.
  - (* ClickTab *)
    destruct (view (now c)); inversion Hstep; subst;
      apply Inv_after_frame; auto.
  - (* ChangeUrl *)
    destruct (View_eqb (view (now c)) Idle && Tab_eqb (activeTab (now c)) youtube);
      inversion Hstep; subst. apply Inv_after_frame; auto.
  - (* ClickSubmit *)
    destruct (View_eqb (view (now c)) Idle) eqn:Hview; [|discriminate].
    apply View_eqb_eq, view_Idle in Hview. destruct Hview as [Hload Hres].
    destruct HI as [Ia Ib Ic Id Ie If].
    destruct (Tab_eqb (activeTab (now c)) youtube
              && negb (truthy (trim (youtubeUrl (now c))))) eqn:Hguard.
    + (* validation message *)
      assert (E : handleSubmit (now c) (world c) =
                  (inr Finished, snd (setError (Some (lit "Please enter a YouTube URL")) (world c)))).
      { unfold handleSubmit. rewrite Hguard. reflexivity. }
      rewrite E in Hstep. inversion Hstep; subst.
      constructor; unfold now, pending in *; simpl; assumption.
    + (* the request goes out *)
      destruct (handleSubmit_sends (now c) (world c) Hguard) as [resume E].
      pose proof E as E'. rewrite E in Hstep. inversion Hstep; subst. clear Hstep.
      rewrite Ia in Hres. rewrite andb_diag in Hres.
      constructor; unfold now, pending in *; simpl.
      * symmetry. exact Hres.
      * reflexivity.
      * reflexivity.
      * intros _. apply Id. rewrite Ia. exact Hres.
      * intros k Hk. inversion Hk; subst. eauto.
      * apply Forall_app. split; [assumption|]. constructor; [eauto | constructor].
  - (* Settle *)
    destruct (inflight c) as [resume|] eqn:Hin; [|discriminate].
    inversion Hstep; subst. clear Hstep.
    destruct HI as [Ia Ib Ic Id Ie If].
    destruct (Ie resume Hin) as (snap & w & req & w' & Hs).
    assert (Hload : isLoading (summaryState (now c)) = true).
    { rewrite Ic. unfold pending. rewrite Hin. reflexivity. }
    pose proof (Ib Hload) as Hshow.
    destruct (caught o) as [e|] eqn:Hc.
    + rewrite (resume_caught snap w w' req resume o e (world c) Hs Hc).
      constructor; unfold now, pending in *; simpl.
      * rewrite <- Ia. symmetry. exact Hshow.
      * reflexivity.
      * reflexivity.
      * intros _. apply Id. exact Hshow.
      * discriminate.
      * assumption.
    + destruct (caught_None o Hc) as (r & d & -> & Hok & Hj).
      rewrite (resume_parsed snap w w' req resume r d (world c) Hs Hok Hj).
      constructor; unfold now, pending in *; simpl;
        try reflexivity; try discriminate; assumption.
  - (* ClickSection *)
    destruct (View_eqb (view (now c)) Result) eqn:Hview; [|discriminate].
    apply View_eqb_eq, view_Result in Hview. destruct Hview as [Hshow Hdata].
    inversion Hstep; subst. destruct HI as [Ia Ib Ic Id Ie If].
    constructor; unfold now, pending, after in *; simpl; try assumption.
    rewrite Hshow. discriminate.
  - (* ClickTimeline *)
    destruct (View_eqb (view (now c)) Result
              && ResultSection_eqb (activeSection (now c)) summarize
              && (index <? timeline_length (now c))); [|discriminate].
    inversion Hstep; subst. apply Inv_after_frame; auto.
  - (* ClickBack *)
    destruct (View_eqb (view (now c)) Result) eqn:Hview; [|discriminate].
    apply View_eqb_eq, view_Result in Hview. destruct Hview as [Hshow Hdata].
    destruct (ResultSection_eqb (activeSection (now c)) summarize); [|discriminate].
    inversion Hstep; subst. destruct HI as [Ia Ib Ic Id Ie If].
    constructor; unfold now, pending, after in *; simpl; try reflexivity; try assumption.
    rewrite <- Ic.
    destruct (isLoading (summaryState (cells (world c)))); [|reflexivity].
    rewrite Ib in Hshow; [discriminate | reflexivity].
  - (* ChooseFiles *)
    destruct (View_eqb (view (now c)) Idle && Tab_eqb (activeTab (now c)) document);
      inversion Hstep; subst. assumption.
Qed.

Lemma run_Inv (events : list Event) :
  forall c c', Inv c -> run c events = Some c' -> Inv c'.
Proof.
  induction events as [|ev rest IH]; simpl; intros c c' HI Hrun.
  - inversion Hrun; subst. assumption.
  - destruct (step c ev) as [c1|] eqn:Hstep; [|discriminate].
    eapply IH; [|eassumption]. eapply step_Inv; eassumption.
Qed.

Lemma reachable_Inv (c : Config) : reachable c -> Inv c.
Proof.
  intros [events Hrun]. eapply run_Inv; [apply Inv_mounted | eassumption].
Qed.

(** A run that succeeds ends in the configuration the scenarios name. *)
Lemma or_mounted_Some (o : option Config) :
  isSome o = true -> o = Some (Scenario.or_mounted o).
Proof. destruct o; [reflexivity | discriminate]. Qed.

(** Where the submit button is on screen, the flags are those of Idle. *)
Lemma Idle_flags (c : Config) :
  Inv c -> view (now c) = Idle ->
  isLoading (summaryState (now c)) = false
  /\ showSummary (summaryState (now c)) = false
  /\ analysisData (now c) = None
  /\ pending c = false.
Proof.
  intros [Ia Ib Ic Id Ie If] Hview. apply view_Idle in Hview.
  destruct Hview as [Hload Hres]. rewrite Ia, andb_diag in Hres.
  repeat split.
  - exact Hload.
  - rewrite Ia. exact Hres.
  - destruct (analysisData (now c)); [discriminate | reflexivity].
  - rewrite <- Ic. exact Hload.
Qed.

(** While an exchange is pending the spinner is on screen and no result is
    stored. *)
Lemma pending_Loading (c : Config) :
  Inv c -> pending c = true ->
  view (now c) = Loading /\ analysisData (now c) = None
  /\ activeSection (now c) = summarize.
Proof.
  intros [Ia Ib Ic Id Ie If] Hp. rewrite <- Ic in Hp.
  pose proof (Ib Hp) as Hshow. repeat split.
  - unfold view. rewrite Hshow, Hp. reflexivity.
  - rewrite Ia in Hshow. destruct (analysisData (now c)); [discriminate | reflexivity].
  - apply Id. exact Hshow.
Qed.

(** C1. For every controller state in which the active input tab is
    ['youtube'] and the URL field is empty or whitespace-only, [handleSubmit]
    issues no HTTP request (it ends without reaching [fetch]), sets the error
    message ['Please enter a YouTube URL'] and leaves [summaryState] as it
    was; so a state that is Idle ([isLoading] false, [showSummary] false)
    before is Idle after, the click on the submit button is taken, and no
    request is sent by it. *)
Theorem handleSubmit_blank_youtube_url :
  forall c : Config,
    activeTab (now c) = youtube ->
    blank (youtubeUrl (now c)) = true ->
    let r := handleSubmit (now c) (world c) in
    fst r = inr Finished
    /\ error (cells (snd r)) = Some (lit "Please enter a YouTube URL")
    /\ summaryState (cells (snd r)) = summaryState (now c)
    /\ (isLoading (summaryState (now c)) = false ->
        showSummary (summaryState (now c)) = false ->
        isLoading (summaryState (cells (snd r))) = false
        /\ showSummary (summaryState (cells (snd r))) = false
        /\ view (cells (snd r)) = Idle
        /\ exists c',
             step c ClickSubmit = Some c'
             /\ now c' = cells (snd r)
             /\ sent c' = sent c
             /\ pending c' = pending c).
Proof.
  intros c Htab Hblank r. unfold r.
  rewrite (handleSubmit_rejects (now c) (world c) Htab Hblank).
  split; [reflexivity|]. split; [reflexivity|]. split; [reflexivity|].
  intros Hload Hshow.
  assert (Hview : view (now c) = Idle).
  { unfold view. rewrite Hshow, Hload. reflexivity. }
  split; [exact Hload|]. split; [exact Hshow|]. split.
  - unfold view. simpl. unfold now in Hshow, Hload. rewrite Hshow, Hload. reflexivity.
  - simpl step. rewrite Hview. simpl.
    rewrite (handleSubmit_rejects (now c) (world c) Htab Hblank).
    eexists. split; [reflexivity|]. repeat split.
Qed.

(** An instance of C1: the URL field holds three spaces. *)
Lemma handleSubmit_blank_youtube_url_witness :
  fst (handleSubmit (now Scenario.blank_form) (world Scenario.blank_form)) = inr Finished
  /\ exists c',
       step Scenario.blank_form ClickSubmit = Some c'
       /\ sent c' = []
       /\ error (now c') = Some (lit "Please enter a YouTube URL")
       /\ isLoading (summaryState (now c')) = false
       /\ showSummary (summaryState (now c')) = false
       /\ view (now c') = Idle.
Proof.
  destruct (handleSubmit_blank_youtube_url Scenario.blank_form eq_refl eq_refl)
    as (H1 & H2 & _ & H).
  split; [exact H1|].
  destruct (H eq_refl eq_refl) as (H3 & H4 & H5 & c' & H6 & H7 & H8 & _).
  exists c'. split; [exact H6|]. split; [exact H8|].
  rewrite H7. repeat split; assumption.
Defined.



(** C3. For every run of [handleSubmit] in which the response is 2xx and
    parses as [AnalysisData], the controller goes from Loading to Result
    ([isLoading] false, [showSummary] true, [analysisData] the parsed value),
    and the selected result section at that moment is ['summarize']. *)
Theorem handleSubmit_success :
  forall (c : Config) (r : Response) (d : AnalysisData),
    reachable c -> pending c = true -> ok r = true -> json r = inr d ->
    exists c',
      step c (Settle (Resolved r)) = Some c'
      /\ view (now c) = Loading
      /\ view (now c') = Result
      /\ isLoading (summaryState (now c')) = false
      /\ showSummary (summaryState (now c')) = true
      /\ analysisData (now c') = Some d
      /\ activeSection (now c') = summarize
      /\ pending c' = false.
Proof.
  intros c r d Hreach Hpend Hok Hjson. apply reachable_Inv in Hreach.
  destruct (pending_Loading c Hreach Hpend) as (Hview & Hdata & Hsec).
  unfold pending in Hpend. simpl.
  destruct (inflight c) as [resume|] eqn:Hin; [|discriminate].
  destruct (inv_resume c Hreach resume Hin) as (snap & w & req & w' & Hs).
  eexists. split; [reflexivity|].
  rewrite (resume_parsed snap w w' req resume r d (world c) Hs Hok Hjson).
  unfold now in *. simpl. repeat split; assumption.
Qed.

(** An instance of C3: the service answers 200 with the five-item
    analysis. *)
Lemma handleSubmit_success_witness :
  exists c',
    step Scenario.loading (Settle Scenario.response_200) = Some c'
    /\ view (now c') = Result
    /\ analysisData (now c') = Some Scenario.data
    /\ activeSection (now c') = summarize.
Proof.
  destruct (handleSubmit_success Scenario.loading
              {| status := 200; json := inr Scenario.data |} Scenario.data)
    as (c' & H1 & H2 & H3 & H4 & H5 & H6 & H7 & H8).
  - exists Scenario.submitted. apply or_mounted_Some. reflexivity.
  - reflexivity.
  - reflexivity.
  - reflexivity.
  - exists c'. repeat split; assumption.
Defined.

(** C10. When the active input tab is ['document'], [handleSubmit] makes no
    non-empty check: for every value of the URL field, the empty one
    included, it issues the POST to [/api/analyze] with a JSON body whose
    [youtube_url] is the text of the URL field; the body has no other member,
    and so it is for every request the component ever sends. *)
Theorem handleSubmit_document :
  forall c : Config,
    activeTab (now c) = document ->
    (exists resume w',
       handleSubmit (now c) (world c) =
         (inr (AwaitFetch
                 {| req_input := lit "http://localhost:8000/api/analyze";
                    req_method := lit "POST";
                    req_headers := [(lit "Content-Type", lit "application/json")];
                    req_body := JSON_stringify
                                  (JObject [(lit "youtube_url", JString (youtubeUrl (now c)))]) |}
                 resume), w')
       /\ isLoading (summaryState (cells w')) = true)
    /\ (reachable c ->
        Forall (fun req => exists u,
                  req_input req = lit "http://localhost:8000/api/analyze"
                  /\ req_method req = lit "POST"
                  /\ req_body req = JSON_stringify (JObject [(lit "youtube_url", JString u)]))
               (sent c)).
Proof.
  intros c Htab. split.
  - assert (Hguard : Tab_eqb (activeTab (now c)) youtube
                     && negb (truthy (trim (youtubeUrl (now c)))) = false).
    { rewrite Htab. reflexivity. }
    destruct (handleSubmit_sends (now c) (world c) Hguard) as [resume E].
    exists resume. eexists. split; [exact E | reflexivity].
  - intros Hreach. apply reachable_Inv in Hreach.
    eapply Forall_impl; [|apply (inv_sent c Hreach)].
    intros req [u ->]. exists u. repeat split.
Qed.

(** An instance of C10: the document tab, an empty URL field, two files
    chosen; the click sends the request with the empty [youtube_url]. *)
Lemma handleSubmit_document_witness :
  exists c',
    step Scenario.document_form ClickSubmit = Some c'
    /\ youtubeUrl (now Scenario.document_form) = []
    /\ sent c' = [post_analyze []]
    /\ Forall (fun req => exists u,
                 req_input req = lit "http://localhost:8000/api/analyze"
                 /\ req_method req = lit "POST"
                 /\ req_body req = JSON_stringify (JObject [(lit "youtube_url", JString u)]))
              (sent c').
Proof.
  eexists. split; [reflexivity|]. split; [reflexivity|]. split; [reflexivity|].
  match goal with
  | |- Forall _ (sent ?c1) =>
      destruct (handleSubmit_document c1 eq_refl) as [_ H]
  end.
  apply H.
  exists [ClickTab document; ChooseFiles [lit "a.pdf"; lit "b.docx"]; ClickSubmit].
  reflexivity.
Defined.

(** *** The expanded set across analyses *)

(** Only [toggleTimeline] writes [expandedTimeline]: neither [handleSubmit],
    nor its continuation, nor [handleBack] does. *)
Lemma step_expandedTimeline (c c' : Config) (ev : Event) :
  Inv c -> step c ev = Some c' -> untoggled [ev] = true ->
  expandedTimeline (now c') = expandedTimeline (now c).
Proof.
  intros HI Hstep Hev. destruct ev as [t|v| |o|sec|index| |files]; simpl in Hstep.
  - destruct (view (now c)); inversion Hstep; reflexivity.
  - destruct (View_eqb (view (now c)) Idle && Tab_eqb (activeTab (now c)) youtube);
      inversion Hstep; reflexivity.
  - destruct (View_eqb (view (now c)) Idle); [|discriminate].
    destruct (Tab_eqb (activeTab (now c)) youtube
              && negb (truthy (trim (youtubeUrl (now c))))) eqn:Hguard.
    + unfold handleSubmit in Hstep. rewrite Hguard in Hstep.
      inversion Hstep; reflexivity.
    + destruct (handleSubmit_sends (now c) (world c) Hguard) as [resume E].
      rewrite E in Hstep. inversion Hstep; reflexivity.
  - destruct (inflight c) as [resume|] eqn:Hin; [|discriminate].
    inversion Hstep; subst. clear Hstep.
    destruct (inv_resume c HI resume Hin) as (snap & w & req & w' & Hs).
    destruct (caught o) as [e|] eqn:Hc.
    + unfold now. simpl.
      rewrite (resume_caught snap w w' req resume o e (world c) Hs Hc). reflexivity.
    + destruct (caught_None o Hc) as (r & d & -> & Hok & Hj).
      unfold now. simpl.
      rewrite (resume_parsed snap w w' req resume r d (world c) Hs Hok Hj). reflexivity.
  - destruct (View_eqb (view (now c)) Result); inversion Hstep; reflexivity.
  - discriminate.
  - destruct (View_eqb (view (now c)) Result
              && ResultSection_eqb (activeSection (now c)) summarize);
      inversion Hstep; reflexivity.
  - destruct (View_eqb (view (now c)) Idle && Tab_eqb (activeTab (now c)) document);
      inversion Hstep; reflexivity.
Qed.

Lemma run_expandedTimeline (events : list Event) :
  forall c c', Inv c -> run c events = Some c' -> untoggled events = true ->
               expandedTimeline (now c') = expandedTimeline (now c).
Proof.
  induction events as [|ev rest IH]; simpl; intros c c' HI Hrun Hun.
  - inversion Hrun; reflexivity.
  - destruct (step c ev) as [c1|] eqn:Hstep; [|discriminate].
    apply andb_true_iff in Hun as [Hev Hrest].
    rewrite (IH c1 c' (step_Inv c c1 ev HI Hstep) Hrun Hrest).
    apply (step_expandedTimeline c c1 ev HI Hstep).
    simpl. rewrite Hev. reflexivity.
Qed.

Lemma render_rows_from_length (e : list nat) (items : list TimelineItem) :
  forall n, List.length (render_rows_from e n items) = List.length items.
Proof.
  induction items as [|it items IH]; intros n; simpl; [reflexivity|].
  rewrite IH. reflexivity.
Qed.

Lemma render_rows_from_nth (e : list nat) (items : list TimelineItem) :
  forall n i row,
    nth_error (render_rows_from e n items) i = Some row ->
    row_expanded row = includes e (n + i).
Proof.
  induction items as [|it items IH]; intros n i row H.
  - destruct i; discriminate.
  - destruct i as [|i]; simpl in H.
    + inversion H; subst. simpl. rewrite Nat.add_0_r. reflexivity.
    + rewrite (IH (S n) i row H). f_equal. lia.
Qed.

(** C6, as the component has it. Whenever the controller is in the Result
    view and [toggleTimeline] has not run since the component was mounted
    (so on the first entry into Result, and on a later one if the rows were
    left alone), the expanded set is exactly [[0]]: there is one row per
    timeline entry, the first renders expanded and all others collapsed.
    And neither [handleBack] nor [handleSubmit] resets the set: from any
    configuration the component gets into, whatever happens next other than
    a toggle (the way back, a new submission, its settlement) leaves the set
    as the user left it. *)
Theorem untoggled_result_first_row_expanded :
  (forall (events : list Event) (c : Config),
     untoggled events = true ->
     run mounted events = Some c ->
     view (now c) = Result ->
     expandedTimeline (now c) = [0]
     /\ List.length (render_rows (now c)) = timeline_length (now c)
     /\ (forall i row, nth_error (render_rows (now c)) i = Some row ->
                       row_expanded row = (i =? 0)))
  /\ (forall (c c' : Config) (events : list Event),
        reachable c ->
        untoggled events = true ->
        run c events = Some c' ->
        expandedTimeline (now c') = expandedTimeline (now c)).
Proof.
  split.
  - intros events c Hun Hrun Hview.
    pose proof (run_expandedTimeline events mounted c Inv_mounted Hrun Hun) as Hexp.
    change (expandedTimeline (now mounted)) with [0] in Hexp.
    split; [exact Hexp|]. unfold render_rows, timeline_length.
    destruct (analysisData (now c)) as [d|]; split; try reflexivity.
    + apply render_rows_from_length.
    + intros i row H. rewrite (render_rows_from_nth _ _ 0 i row H), Hexp.
      destruct i; reflexivity.
    + intros i row H. destruct i; discriminate.
  - intros c c' events Hreach Hun Hrun.
    apply (run_expandedTimeline events c c' (reachable_Inv c Hreach) Hrun Hun).
Qed.

(** Instances: two analyses of the five-item video, the way back in
    between, the timeline rows left alone; and, after the user has collapsed
    row 0 and opened row 2, the way back and a second analysis, which keep
    the set [[2]]. *)
Lemma untoggled_result_first_row_expanded_witness :
  (view (now Scenario.plain_result) = Result
   /\ expandedTimeline (now Scenario.plain_result) = [0]
   /\ List.length (render_rows (now Scenario.plain_result)) = 5
   /\ (forall i row, nth_error (render_rows (now Scenario.plain_result)) i = Some row ->
                     row_expanded row = (i =? 0)))
  /\ (expandedTimeline (now Machine.toggled_result) = [2]
      /\ view (now Machine.second_result_again) = Result
      /\ expandedTimeline (now Machine.second_result_again)
         = expandedTimeline (now Machine.toggled_result)).
Proof.
  destruct untoggled_result_first_row_expanded as [First Kept].
  split.
  - split; [reflexivity|].
    apply (First Scenario.two_plain_analyses Scenario.plain_result).
    + reflexivity.
    + apply or_mounted_Some. reflexivity.
    + reflexivity.
  - split; [reflexivity|]. split; [reflexivity|].
    apply (Kept Machine.toggled_result Machine.second_result_again Machine.back_and_again).
    + exists Machine.first_analysis_toggled. apply or_mounted_Some. reflexivity.
    + reflexivity.
    + apply or_mounted_Some. reflexivity.
Defined.

(** C6 as claimed fails on a second analysis: the user collapses row 0 and
    opens row 2, goes back, and submits again; the component enters Result
    with the set [[2]], the first row collapsed and the third expanded. *)
Lemma second_entry_keeps_toggles :
  run mounted Scenario.second_analysis = Some Scenario.second_loading
  /\ step Scenario.second_loading (Settle Scenario.response_200) = Some Scenario.second_result
  /\ view (now Scenario.second_loading) = Loading
  /\ view (now Scenario.second_result) = Result
  /\ expandedTimeline (now Scenario.second_result) = [2]
  /\ map row_expanded (render_rows (now Scenario.second_result))
     = [false; false; true; false; false].
Proof.
  split; [apply or_mounted_Some; reflexivity|].
  split; [apply or_mounted_Some; reflexivity|].
  repeat split.
Qed.

End ControllerFacts.

(* ===================================================================== *)
(** ** Properties of the summariser stub                                 *)
(* ===================================================================== *)

Module SummarizerFacts.
Import Summarizer.
Local Open Scope string_scope.

Lemma strip_mock_summary : strip mock_summary = fixed_paragraph.
Proof. vm_compute. reflexivity. Qed.

(** C7. For every pair of transcripts, [generate_summary] returns the same
    fixed paragraph, the hardcoded machine-learning synopsis stripped of its
    surrounding whitespace: the result does not depend on the transcript. *)
Theorem generate_summary_fixed :
  forall (self : SummarizerService) (transcript1 transcript2 : string) (l : Log),
    @generate_summary logging_getLogger self transcript1 l
      = (inr fixed_paragraph, (l ++ [(INFO, "Generating overall summary")])%list)
    /\ @generate_summary logging_getLogger self transcript2 l
       = @generate_summary logging_getLogger self transcript1 l
    /\ fixed_paragraph = strip mock_summary
    /\ (forall lg : Logger,
          @generate_summary lg self transcript1 l = @generate_summary lg self transcript2 l).
Proof.
  intros self t1 t2 l.
  split.
  { unfold generate_summary, try_except_Exception, bind, ret. simpl.
    rewrite strip_mock_summary. reflexivity. }
  split; [reflexivity|].
  split; [symmetry; apply strip_mock_summary | reflexivity].
Qed.

(** C8. For every transcript and every [duration_seconds],
    [generate_timeline_summary] returns the same list of five fixed
    [TimelineItem]s, with the timestamps ['00:00 - 01:00'], ['01:00 - 02:30'],
    ['02:30 - 04:00'], ['04:00 - 05:15'], ['05:15 - 06:30'] in this order,
    whatever the two arguments. *)
Theorem generate_timeline_summary_fixed :
  forall (self : SummarizerService) (transcript1 transcript2 : string)
         (duration1 duration2 : Z) (l : Log),
    @generate_timeline_summary logging_getLogger self transcript1 duration1 l
      = (inr mock_timeline, (l ++ [(INFO, "Generating timeline summary")])%list)
    /\ @generate_timeline_summary logging_getLogger self transcript2 duration2 l
       = @generate_timeline_summary logging_getLogger self transcript1 duration1 l
    /\ map timestamp mock_timeline
       = ["00:00 - 01:00"; "01:00 - 02:30"; "02:30 - 04:00"; "04:00 - 05:15"; "05:15 - 06:30"]
    /\ List.length mock_timeline = 5
    /\ (forall lg : Logger,
          @generate_timeline_summary lg self transcript1 duration1 l
          = @generate_timeline_summary lg self transcript2 duration2 l).
Proof.
  intros self t1 t2 d1 d2 l. repeat split.
Qed.

Lemma length_append (a b : string) :
  String.length (a ++ b) = String.length a + String.length b.
Proof. induction a as [|c a IH]; simpl; [reflexivity | rewrite IH; reflexivity]. Qed.

Lemma prefixed_differs (p s : string) :
  0 < String.length p -> p ++ s <> s.
Proof.
  intros Hp E. apply (f_equal String.length) in E. rewrite length_append in E. lia.
Qed.

(** C9, as the service has it. If an exception that derives from
    [Exception] is raised in the [try] block of [generate_summary] (of
    [generate_timeline_summary]), and the handler's call of [logger.error]
    returns, the operation raises [Exception] with the message of the
    original prefixed by ['Failed to generate summary: '] (by ['Failed to
    generate timeline summary: ']), and what it raises is not the original
    exception. An exception that derives from [BaseException] only is not
    caught: the operation raises it as it is, and the handler does not
    run. *)
Theorem except_Exception_wraps :
  forall (lg : Logger) (self : SummarizerService) (transcript : string)
         (duration_seconds : Z) (l l1 l2 : Log) (e : PyExc),
    (is_Exception e = true ->
     (@info lg "Generating overall summary" l = (inl e, l1) ->
      @error lg ("Error generating summary: " ++ str e) l1 = (inr tt, l2) ->
      @generate_summary lg self transcript l
        = (inl (Exception ("Failed to generate summary: " ++ str e)), l2)
      /\ Exception ("Failed to generate summary: " ++ str e) <> e)
     /\ (@info lg "Generating timeline summary" l = (inl e, l1) ->
         @error lg ("Error generating timeline summary: " ++ str e) l1 = (inr tt, l2) ->
         @generate_timeline_summary lg self transcript duration_seconds l
           = (inl (Exception ("Failed to generate timeline summary: " ++ str e)), l2)
         /\ Exception ("Failed to generate timeline summary: " ++ str e) <> e))
    /\ (is_Exception e = false ->
        (@info lg "Generating overall summary" l = (inl e, l1) ->
         @generate_summary lg self transcript l = (inl e, l1))
        /\ (@info lg "Generating timeline summary" l = (inl e, l1) ->
            @generate_timeline_summary lg self transcript duration_seconds l
              = (inl e, l1))).
Proof.
  intros lg self transcript duration_seconds l l1 l2 e. split; intros He; split.
  - intros Hinfo Herror. split.
    + unfold generate_summary, try_except_Exception, bind, raise.
      rewrite Hinfo, He, Herror. reflexivity.
    + intros E. apply (f_equal str) in E. simpl in E.
      revert E. apply (prefixed_differs "Failed to generate summary: "). simpl. lia.
  - intros Hinfo Herror. split.
    + unfold generate_timeline_summary, try_except_Exception, bind, raise.
      rewrite Hinfo, He, Herror. reflexivity.
    + intros E. apply (f_equal str) in E. simpl in E.
      revert E. apply (prefixed_differs "Failed to generate timeline summary: "). simpl. lia.
  - intros Hinfo.
    unfold generate_summary, try_except_Exception, bind.
    rewrite Hinfo, He. reflexivity.
  - intros Hinfo.
    unfold generate_timeline_summary, try_except_Exception, bind.
    rewrite Hinfo, He. reflexivity.
Qed.

(** Instances: [logger.info] raises [ValueError('boom')], which is wrapped;
    [logger.info] raises [SystemExit()], which passes. *)
Lemma except_Exception_wraps_witness :
  (@generate_summary (raising_logger (ValueError "boom")) service "transcript" []
     = (inl (Exception "Failed to generate summary: boom"),
        [(ERROR, "Error generating summary: boom")])
   /\ @generate_timeline_summary (raising_logger (ValueError "boom")) service "transcript" 390 []
      = (inl (Exception "Failed to generate timeline summary: boom"),
         [(ERROR, "Error generating timeline summary: boom")]))
  /\ (@generate_summary (raising_logger Loggers.SystemExit) service "transcript" []
        = (inl Loggers.SystemExit, [])
      /\ @generate_timeline_summary (raising_logger Loggers.SystemExit) service "transcript" 390 []
         = (inl Loggers.SystemExit, [])).
Proof.
  destruct (except_Exception_wraps (raising_logger (ValueError "boom")) service "transcript" 390
              [] [] [(ERROR, "Error generating summary: boom")] (ValueError "boom"))
    as [H1 _].
  destruct (except_Exception_wraps (raising_logger (ValueError "boom")) service "transcript" 390
              [] [] [(ERROR, "Error generating timeline summary: boom")] (ValueError "boom"))
    as [H2 _].
  destruct (except_Exception_wraps (raising_logger Loggers.SystemExit) service "transcript" 390
              [] [] [] Loggers.SystemExit)
    as [_ H3].
  split; split.
  - apply (H1 eq_refl); reflexivity.
  - apply (H2 eq_refl); reflexivity.
  - apply (H3 eq_refl); reflexivity.
  - apply (H3 eq_refl); reflexivity.
Defined.

(** C9 as claimed fails on an exception outside [Exception]: a
    [KeyboardInterrupt] raised inside the [try] block leaves both operations
    as it is, unwrapped, and nothing is logged. *)
Lemma KeyboardInterrupt_passes_unwrapped :
  @generate_summary (raising_logger KeyboardInterrupt) service "transcript" []
    = (inl KeyboardInterrupt, [])
  /\ @generate_timeline_summary (raising_logger KeyboardInterrupt) service "transcript" 390 []
     = (inl KeyboardInterrupt, []).
Proof. split; reflexivity. Qed.

End SummarizerFacts.

(* ===================================================================== *)
(** ** Further properties of the machine                                 *)
(* ===================================================================== *)

Module MachineFacts.
Import JS JSFacts Controller ControllerFacts Machine.

Lemma includes_In (l : list nat) (i : nat) : includes l i = true <-> In i l.
Proof.
  unfold includes. rewrite existsb_exists. split.
  - intros [x [Hx E]]. apply Nat.eqb_eq in E. subst. exact Hx.
  - intros H. exists i. split; [exact H | apply Nat.eqb_refl].
Qed.

Lemma NoDup_snoc (l : list nat) (i : nat) :
  NoDup l -> ~ In i l -> NoDup (l ++ [i]).
Proof.
  induction l as [|k l IH]; simpl; intros Hnd Hin.
  - constructor; [intros [] | constructor].
  - inversion Hnd; subst. constructor.
    + rewrite in_app_iff. simpl. intros [H|[H|[]]]; [contradiction|].
      apply Hin. left. symmetry. exact H.
    + apply IH; [assumption|]. intros H. apply Hin. right. exact H.
Qed.

Lemma toggleTimeline_NoDup (index : nat) (w : World) :
  NoDup (expandedTimeline (cells w)) ->
  NoDup (expandedTimeline (cells (snd (toggleTimeline index w)))).
Proof.
  intros Hnd. rewrite toggleTimeline_cells.
  destruct (includes (expandedTimeline (cells w)) index) eqn:E.
  - apply NoDup_filter. exact Hnd.
  - apply NoDup_snoc; [exact Hnd|]. rewrite <- includes_In, E. discriminate.
Qed.

Lemma busy_Idle (c : Config) :
  Inv c -> view (now c) = Idle -> busy (now c) = false.
Proof.
  intros HI Hview. destruct (Idle_flags c HI Hview) as (Hl & Hs & _).
  unfold busy. rewrite Hl, Hs. reflexivity.
Qed.

Lemma step_Inv2 (c c' : Config) (ev : Event) :
  Inv c -> Inv2 c -> step c ev = Some c' -> Inv2 c'.
Proof.
  intros HI [Jt Je Jl Jn] Hstep.
  destruct ev as [t|v| |o|sec|index| |files]; simpl in Hstep.
  - (* ClickTab *)
    destruct (view (now c)); inversion Hstep; subst;
      constructor; unfold now, busy, after in *; simpl; assumption.
  - (* ChangeUrl *)
    destruct (View_eqb (view (now c)) Idle) eqn:Hview; [|discriminate].
    apply View_eqb_eq in Hview. pose proof (busy_Idle c HI Hview) as Hb.
    destruct (Tab_eqb (activeTab (now c)) youtube); [|discriminate].
    inversion Hstep; subst.
    constructor; unfold now, busy, after in *; simpl; try assumption.
    rewrite Hb. discriminate.
  - (* ClickSubmit *)
    destruct (View_eqb (view (now c)) Idle) eqn:Hview; [|discriminate].
    apply View_eqb_eq in Hview. pose proof (busy_Idle c HI Hview) as Hb.
    destruct (Tab_eqb (activeTab (now c)) youtube
              && negb (truthy (trim (youtubeUrl (now c))))) eqn:Hguard.
    + assert (E : handleSubmit (now c) (world c) =
                  (inr Finished, snd (setError (Some (lit "Please enter a YouTube URL")) (world c)))).
      { unfold handleSubmit. rewrite Hguard. reflexivity. }
      rewrite E in Hstep. inversion Hstep; subst.
      constructor; unfold now, busy in *; simpl; try assumption;
        rewrite Hb; discriminate.
    + destruct (handleSubmit_sends (now c) (world c) Hguard) as [resume E].
      rewrite E in Hstep. inversion Hstep; subst. clear Hstep.
      constructor; unfold now, busy in *; simpl; try reflexivity; try assumption.
      intros _. exists (sent c). reflexivity.
  - (* Settle *)
    destruct (inflight c) as [resume|] eqn:Hin; [|discriminate].
    inversion Hstep; subst. clear Hstep.
    destruct (inv_resume c HI resume Hin) as (snap & w & req & w' & Hs).
    assert (Hload : isLoading (summaryState (now c)) = true).
    { rewrite (inv_pending c HI). unfold pending. rewrite Hin. reflexivity. }
    assert (Hb : busy (now c) = true).
    { unfold busy. rewrite Hload. reflexivity. }
    destruct (caught o) as [e|] eqn:Hc.
    + rewrite (resume_caught snap w w' req resume o e (world c) Hs Hc).
      constructor; unfold now, busy in *; simpl; try reflexivity; try assumption;
        discriminate.
    + destruct (caught_None o Hc) as (r & d & -> & Hok & Hj).
      rewrite (resume_parsed snap w w' req resume r d (world c) Hs Hok Hj).
      constructor; unfold now, busy in *; simpl; try reflexivity; try assumption.
      * intros _. apply Je. exact Hb.
      * intros _. apply Jl. exact Hb.
  - (* ClickSection *)
    destruct (View_eqb (view (now c)) Result); inversion Hstep; subst.
    constructor; unfold now, busy, after in *; simpl; assumption.
  - (* ClickTimeline *)
    destruct (View_eqb (view (now c)) Result
              && ResultSection_eqb (activeSection (now c)) summarize
              && (index <? timeline_length (now c))); inversion Hstep; subst.
    constructor; unfold now, busy, after in *; try assumption.
    apply toggleTimeline_NoDup. exact Jn.
  - (* ClickBack *)
    destruct (View_eqb (view (now c)) Result
              && ResultSection_eqb (activeSection (now c)) summarize);
      inversion Hstep; subst.
    constructor; unfold now, busy, after in *; simpl; try reflexivity; try assumption;
      discriminate.
  - (* ChooseFiles *)
    destruct (View_eqb (view (now c)) Idle && Tab_eqb (activeTab (now c)) document);
      inversion Hstep; subst. constructor; assumption.
Qed.

Lemma Inv2_mounted : Inv2 mounted.
Proof.
  constructor; cbn; try reflexivity; try discriminate.
  constructor; [intros [] | constructor].
Qed.

Lemma run_Inv2 (events : list Event) :
  forall c c', Inv c -> Inv2 c -> run c events = Some c' -> Inv2 c'.
Proof.
  induction events as [|ev rest IH]; simpl; intros c c' HI HJ Hrun.
  - inversion Hrun; subst. assumption.
  - destruct (step c ev) as [c1|] eqn:Hstep; [|discriminate].
    apply (IH c1 c'); [| |assumption].
    + apply (step_Inv c c1 ev HI Hstep).
    + apply (step_Inv2 c c1 ev HI HJ Hstep).
Qed.

Lemma reachable_Inv2 (c : Config) : reachable c -> Inv2 c.
Proof.
  intros [events Hrun].
  apply (run_Inv2 events mounted c Inv_mounted Inv2_mounted Hrun).
Qed.

(** *** The combinations of flags that occur *)

Lemma Inv_flags (c : Config) :
  Inv c -> Inv2 c ->
  match view (now c) with
  | Idle =>
      summaryState (now c) = {| isLoading := false; showSummary := false; type := None |}
      /\ analysisData (now c) = None
      /\ pending c = false
  | Loading =>
      (exists t, summaryState (now c)
                 = {| isLoading := true; showSummary := false; type := Some t |})
      /\ analysisData (now c) = None
      /\ error (now c) = None
      /\ pending c = true
  | Result =>
      (exists t, summaryState (now c)
                 = {| isLoading := false; showSummary := true; type := Some t |})
      /\ (exists d, analysisData (now c) = Some d)
      /\ error (now c) = None
      /\ pending c = false
  end.
Proof.
  intros [Ia Ib Ic Id Ie If] [Jt Je Jl Jn].
  unfold view, busy in *.
  destruct (summaryState (now c)) as [ld sh ty]. simpl in *.
  destruct (analysisData (now c)) as [d|]; simpl in *; subst sh.
  - simpl. destruct ld; [specialize (Ib eq_refl); discriminate|].
    destruct ty as [t|]; [|discriminate].
    repeat split; eauto.
  - destruct ld; simpl in *.
    + destruct ty as [t|]; [|discriminate]. repeat split; eauto.
    + destruct ty as [t|]; [discriminate|]. repeat split; auto.
Qed.



(** *** Which controls answer in which view *)

(** X2. While an exchange is pending, the only events the component takes
    are a click on an input tab and the settlement: there is no second
    submission, no edit of the URL, no way back. *)
Theorem loading_takes_tabs_and_settlement :
  forall (c c' : Config) (ev : Event),
    reachable c -> pending c = true -> step c ev = Some c' ->
    (exists t, ev = ClickTab t) \/ (exists o, ev = Settle o).
Proof.
  intros c c' ev Hreach Hpend Hstep.
  destruct (pending_Loading c (reachable_Inv c Hreach) Hpend) as (Hview & _).
  destruct ev; simpl in Hstep; rewrite ?Hview in Hstep; simpl in Hstep;
    try discriminate; eauto.
Qed.

(** An instance of X2: the settlement is taken. *)
Lemma loading_takes_tabs_and_settlement_witness :
  (exists t, Settle Scenario.response_200 = ClickTab t)
  \/ (exists o, Settle Scenario.response_200 = Settle o).
Proof.
  apply (loading_takes_tabs_and_settlement Scenario.loading
           (Scenario.or_mounted (step Scenario.loading (Settle Scenario.response_200)))).
  - exists Scenario.submitted. apply or_mounted_Some. reflexivity.
  - reflexivity.
  - apply or_mounted_Some. reflexivity.
Defined.

(** X3. In the result display, with the viral or the recommendation section
    selected, the only events the component takes are the clicks on the
    three section buttons: the Back button is part of the summarize section
    (line 227), as are the timeline rows. *)
Theorem other_sections_take_section_clicks :
  forall (c c' : Config) (ev : Event),
    reachable c -> view (now c) = Result -> activeSection (now c) <> summarize ->
    step c ev = Some c' ->
    exists s, ev = ClickSection s.
Proof.
  intros c c' ev Hreach Hview Hsec Hstep.
  pose proof (Inv_flags c (reachable_Inv c Hreach) (reachable_Inv2 c Hreach)) as Hf.
  rewrite Hview in Hf. destruct Hf as (_ & _ & _ & Hpend).
  assert (Hs : ResultSection_eqb (activeSection (now c)) summarize = false).
  { destruct (activeSection (now c)); [contradiction | reflexivity | reflexivity]. }
  destruct ev; simpl in Hstep; rewrite ?Hview, ?Hs in Hstep; simpl in Hstep;
    try discriminate; eauto.
  unfold pending in Hpend. destruct (inflight c); discriminate.
Qed.

(** An instance of X3: from the viral section, the click that selects the
    recommendation section. *)
Lemma other_sections_take_section_clicks_witness :
  exists s, ClickSection recommendation = ClickSection s.
Proof.
  apply (other_sections_take_section_clicks viral_section
           (Scenario.or_mounted (step viral_section (ClickSection recommendation)))).
  - exists [ChangeUrl Scenario.url; ClickSubmit; Settle Scenario.response_200;
            ClickSection viral].
    apply or_mounted_Some. reflexivity.
  - reflexivity.
  - discriminate.
  - apply or_mounted_Some. reflexivity.
Defined.

(** *** Requests *)

(** X4. An event leaves the list of requests sent as it is, except a click
    on the submit button in the input form, which may add one request, the
    POST for the text of the URL field, and then leaves an exchange
    pending. Switching sections, toggling rows, going back and changing tabs
    never fetch. *)
Theorem only_submit_sends :
  forall (c c' : Config) (ev : Event),
    step c ev = Some c' ->
    sent c' = sent c
    \/ (ev = ClickSubmit
        /\ view (now c) = Idle
        /\ sent c' = sent c ++ [post_analyze (youtubeUrl (now c))]
        /\ pending c' = true).
Proof.
  intros c c' ev Hstep. destruct ev as [t|v| |o|sec|index| |files]; simpl in Hstep.
  - destruct (view (now c)); inversion Hstep; left; reflexivity.
  - destruct (View_eqb (view (now c)) Idle && Tab_eqb (activeTab (now c)) youtube);
      inversion Hstep; left; reflexivity.
  - destruct (View_eqb (view (now c)) Idle) eqn:Hview; [|discriminate].
    apply View_eqb_eq in Hview.
    destruct (Tab_eqb (activeTab (now c)) youtube
              && negb (truthy (trim (youtubeUrl (now c))))) eqn:Hguard.
    + unfold handleSubmit in Hstep. rewrite Hguard in Hstep.
      inversion Hstep; left; reflexivity.
    + destruct (handleSubmit_sends (now c) (world c) Hguard) as [resume E].
      rewrite E in Hstep. inversion Hstep. right. repeat split. exact Hview.
  - destruct (inflight c); inversion Hstep; left; reflexivity.
  - destruct (View_eqb (view (now c)) Result); inversion Hstep; left; reflexivity.
  - destruct (View_eqb (view (now c)) Result
              && ResultSection_eqb (activeSection (now c)) summarize
              && (index <? timeline_length (now c))); inversion Hstep; left; reflexivity.
  - destruct (View_eqb (view (now c)) Result
              && ResultSection_eqb (activeSection (now c)) summarize);
      inversion Hstep; left; reflexivity.
  - destruct (View_eqb (view (now c)) Idle && Tab_eqb (activeTab (now c)) document);
      inversion Hstep; left; reflexivity.
Qed.

(** An instance of X4: the click on Back sends nothing. *)
Lemma only_submit_sends_witness :
  sent (Scenario.or_mounted (step Scenario.plain_result ClickBack)) = sent Scenario.plain_result
  \/ (ClickBack = ClickSubmit
      /\ view (now Scenario.plain_result) = Idle
      /\ sent (Scenario.or_mounted (step Scenario.plain_result ClickBack))
         = sent Scenario.plain_result ++ [post_analyze (youtubeUrl (now Scenario.plain_result))]
      /\ pending (Scenario.or_mounted (step Scenario.plain_result ClickBack)) = true).
Proof.
  apply (only_submit_sends Scenario.plain_result).
  apply or_mounted_Some. reflexivity.
Defined.

Lemma step_accounting (c c' : Config) (ev : Event) :
  Inv c -> step c ev = Some c' ->
  List.length (sent c') + outstanding c
  = List.length (sent c) + (if is_settle ev then 1 else 0) + outstanding c'.
Proof.
  intros HI Hstep. unfold outstanding.
  destruct ev as [t|v| |o|sec|index| |files]; simpl in Hstep; simpl.
  - destruct (view (now c)); inversion Hstep; unfold pending; simpl; lia.
  - destruct (View_eqb (view (now c)) Idle && Tab_eqb (activeTab (now c)) youtube);
      inversion Hstep; unfold pending; simpl; lia.
  - destruct (View_eqb (view (now c)) Idle) eqn:Hview; [|discriminate].
    apply View_eqb_eq in Hview.
    destruct (Idle_flags c HI Hview) as (_ & _ & _ & Hpend). rewrite Hpend.
    destruct (Tab_eqb (activeTab (now c)) youtube
              && negb (truthy (trim (youtubeUrl (now c))))) eqn:Hguard.
    + unfold handleSubmit in Hstep. rewrite Hguard in Hstep.
      inversion Hstep; subst. unfold pending in *. simpl. rewrite Hpend. lia.
    + destruct (handleSubmit_sends (now c) (world c) Hguard) as [resume E].
      rewrite E in Hstep. inversion Hstep; subst. unfold pending. simpl.
      rewrite length_app. simpl. lia.
  - unfold pending. destruct (inflight c); inversion Hstep; subst. simpl. lia.
  - destruct (View_eqb (view (now c)) Result); inversion Hstep; unfold pending; simpl; lia.
  - destruct (View_eqb (view (now c)) Result
              && ResultSection_eqb (activeSection (now c)) summarize
              && (index <? timeline_length (now c)));
      inversion Hstep; unfold pending; simpl; lia.
  - destruct (View_eqb (view (now c)) Result
              && ResultSection_eqb (activeSection (now c)) summarize);
      inversion Hstep; unfold pending; simpl; lia.
  - destruct (View_eqb (view (now c)) Idle && Tab_eqb (activeTab (now c)) document);
      inversion Hstep; subst; lia.
Qed.

Lemma run_accounting (events : list Event) :
  forall c c', Inv c -> run c events = Some c' ->
    List.length (sent c') + outstanding c
    = List.length (sent c) + count_settles events + outstanding c'.
Proof.
  induction events as [|ev rest IH]; simpl; intros c c' HI Hrun.
  - inversion Hrun; subst. unfold count_settles. simpl. lia.
  - destruct (step c ev) as [c1|] eqn:Hstep; [|discriminate].
    pose proof (step_accounting c c1 ev HI Hstep) as H1.
    pose proof (IH c1 c' (step_Inv c c1 ev HI Hstep) Hrun) as H2.
    unfold count_settles in *. simpl. destruct (is_settle ev); simpl; lia.
Qed.

(** X5. At most one exchange is outstanding, and every request is settled
    once: after any sequence of events from the mounted component, the
    number of requests sent is the number of settlements, plus one if an
    exchange is pending. *)
Theorem sent_is_settled_plus_pending :
  forall (events : list Event) (c : Config),
    run mounted events = Some c ->
    List.length (sent c) = count_settles events + outstanding c.
Proof.
  intros events c Hrun.
  pose proof (run_accounting events mounted c Inv_mounted Hrun) as H.
  unfold outstanding in H at 1. simpl in H. lia.
Qed.

(** An instance of X5: two requests, one settled, one pending. *)
Lemma sent_is_settled_plus_pending_witness :
  List.length (sent Scenario.second_loading) = 1 + 1.
Proof.
  apply (sent_is_settled_plus_pending Scenario.second_analysis Scenario.second_loading).
  apply or_mounted_Some. reflexivity.
Defined.

Lemma blank_false_truthy (u : jsstring) :
  blank u = false -> truthy (trim u) = true.
Proof.
  intros Hb. destruct (truthy (trim u)) eqn:E; [reflexivity|].
  apply trim_falsy_iff_blank in E. congruence.
Qed.

(** X6. With a URL field that is not blank, on either tab, [handleSubmit]
    clears the error, turns the spinner on ([isLoading] true, [showSummary]
    false, [type] the active tab) and issues the POST whose [youtube_url] is
    the text of the field as typed: [trim] serves the check only, the blanks
    around the URL are sent along. *)
Theorem handleSubmit_sends_text_as_typed :
  forall c : Config,
    blank (youtubeUrl (now c)) = false ->
    exists resume w',
      handleSubmit (now c) (world c)
      = (inr (AwaitFetch (post_analyze (youtubeUrl (now c))) resume), w')
      /\ error (cells w') = None
      /\ summaryState (cells w')
         = {| isLoading := true; showSummary := false; type := Some (activeTab (now c)) |}
      /\ youtubeUrl (cells w') = youtubeUrl (now c).
Proof.
  intros c Hb.
  assert (Hguard : Tab_eqb (activeTab (now c)) youtube
                   && negb (truthy (trim (youtubeUrl (now c)))) = false).
  { rewrite (blank_false_truthy _ Hb). apply andb_false_r. }
  destruct (handleSubmit_sends (now c) (world c) Hguard) as [resume E].
  exists resume. eexists. split; [exact E|]. repeat split.
Qed.

(** An instance of X6: the URL pasted with two blanks before and one after;
    the request carries all of it, though its [trim] is the bare URL. *)
Lemma handleSubmit_sends_text_as_typed_witness :
  trim padded_url = Scenario.url
  /\ List.length padded_url = 3 + List.length Scenario.url
  /\ exists resume w',
       handleSubmit (now padded_form) (world padded_form)
       = (inr (AwaitFetch (post_analyze padded_url) resume), w')
       /\ error (cells w') = None
       /\ summaryState (cells w')
          = {| isLoading := true; showSummary := false; type := Some youtube |}
       /\ youtubeUrl (cells w') = padded_url.
Proof.
  split; [reflexivity|]. split; [reflexivity|].
  exact (handleSubmit_sends_text_as_typed padded_form eq_refl).
Defined.

Lemma last_cons_default (l : list Tab) :
  forall t d, last (t :: l) d = last l t.
Proof.
  induction l as [|a l IH]; intros t d; [reflexivity|].
  change (last (t :: a :: l) d) with (last (a :: l) d).
  rewrite (IH a d), (IH a t). reflexivity.
Qed.

Lemma run_tab_clicks (tabs : list Tab) (rest : list Event) :
  forall c c',
    run c (map ClickTab tabs ++ rest) = Some c' ->
    exists cm,
      run cm rest = Some c'
      /\ inflight cm = inflight c
      /\ activeTab (now cm) = last tabs (activeTab (now c))
      /\ summaryState (now cm) = summaryState (now c)
      /\ analysisData (now cm) = analysisData (now c).
Proof.
  induction tabs as [|t tabs IH]; intros c c' Hrun.
  - exists c. repeat split. exact Hrun.
  - change (run c (map ClickTab (t :: tabs) ++ rest))
      with (match step c (ClickTab t) with
            | Some c1 => run c1 (map ClickTab tabs ++ rest)
            | None => None
            end) in Hrun.
    assert (Hs : step c (ClickTab t) = Some (after (setActiveTab t) c)
                 \/ step c (ClickTab t) = None).
    { simpl. destruct (view (now c)); auto. }
    destruct Hs as [Hs|Hs]; rewrite Hs in Hrun; [|discriminate].
    destruct (IH _ _ Hrun) as (cm & H1 & H2 & H3 & H4 & H5).
    exists cm. repeat split; try assumption.
    rewrite H3, last_cons_default. reflexivity.
Qed.

(** X7. The [type] stored with a result is the tab the submission was made
    from, not the tab that is active when the answer arrives: the user may
    click the input tabs while the spinner is on, and the continuation of
    [handleSubmit] still writes the [activeTab] its closure captured. *)
Theorem result_type_is_submitting_tab :
  forall (c c1 c2 : Config) (tabs : list Tab) (r : Response) (d : AnalysisData),
    reachable c ->
    step c ClickSubmit = Some c1 -> pending c1 = true ->
    run c1 (map ClickTab tabs ++ [Settle (Resolved r)]) = Some c2 ->
    ok r = true -> json r = inr d ->
    type (summaryState (now c2)) = Some (activeTab (now c))
    /\ activeTab (now c2) = last tabs (activeTab (now c))
    /\ view (now c2) = Result.
Proof.
  intros c c1 c2 tabs r d Hreach Hstep Hpend Hrun Hok Hjson.
  pose proof (reachable_Inv c Hreach) as HI. simpl in Hstep.
  destruct (View_eqb (view (now c)) Idle) eqn:Hview; [|discriminate].
  apply View_eqb_eq in Hview.
  destruct (Idle_flags c HI Hview) as (_ & _ & _ & Hp0).
  destruct (Tab_eqb (activeTab (now c)) youtube
            && negb (truthy (trim (youtubeUrl (now c))))) eqn:Hguard.
  - unfold handleSubmit in Hstep. rewrite Hguard in Hstep.
    inversion Hstep; subst. unfold pending in *. simpl in Hpend. congruence.
  - destruct (handleSubmit_sends (now c) (world c) Hguard) as [resume E].
    pose proof E as E'. rewrite E in Hstep. inversion Hstep; subst. clear Hstep.
    destruct (run_tab_clicks tabs _ _ _ Hrun) as (cm & Hr & Hin & Htab & _ & _).
    simpl in Hr, Hin. rewrite Hin in Hr. inversion Hr; subst. clear Hr.
    unfold now in *. simpl in *.
    rewrite (resume_parsed _ _ _ _ resume r d (world cm) E' Hok Hjson).
    simpl. repeat split. exact Htab.
Qed.

(** An instance of X7: submitted from the YouTube tab, answered on the
    document tab. *)
Lemma result_type_is_submitting_tab_witness :
  type (summaryState (now switched_while_loading)) = Some youtube
  /\ activeTab (now switched_while_loading) = document
  /\ view (now switched_while_loading) = Result.
Proof.
  apply (result_type_is_submitting_tab
           (Scenario.or_mounted (run mounted [ChangeUrl Scenario.url]))
           Scenario.loading switched_while_loading [document]
           {| status := 200; json := inr Scenario.data |} Scenario.data).
  - exists [ChangeUrl Scenario.url]. apply or_mounted_Some. reflexivity.
  - apply or_mounted_Some. reflexivity.
  - reflexivity.
  - apply or_mounted_Some. reflexivity.
  - reflexivity.
  - reflexivity.
Defined.

(** *** The expanded rows *)

(** X8. [toggleTimeline i] flips whether row [i] is expanded: a collapsed
    row opens, an expanded row closes, also when the list held [i] more than
    once. *)
Theorem toggleTimeline_flips :
  forall (w : World) (i : nat),
    includes (expandedTimeline (cells (snd (toggleTimeline i w)))) i
    = negb (includes (expandedTimeline (cells w)) i).
Proof.
  intros w i. rewrite toggle_includes, Nat.eqb_refl. reflexivity.
Qed.

(** X9. In every configuration the component gets into, the list of
    expanded rows names no row twice. *)
Theorem expandedTimeline_NoDup :
  forall c : Config, reachable c -> NoDup (expandedTimeline (now c)).
Proof.
  intros c Hreach. apply (inv_nodup c (reachable_Inv2 c Hreach)).
Qed.

(** An instance of X9: after the toggles of the first analysis. *)
Lemma expandedTimeline_NoDup_witness :
  NoDup (expandedTimeline (now Scenario.second_loading)).
Proof.
  apply (expandedTimeline_NoDup Scenario.second_loading).
  exists Scenario.second_analysis. apply or_mounted_Some. reflexivity.
Defined.

(** *** The URL field and the last request *)

(** X10. While the spinner or the result display is on, the URL field holds
    the text of the last request sent: the field cannot be edited in between,
    so a result on screen belongs to the URL in the field, and [handleBack]
    returns to a form that still shows it. *)
Theorem last_request_is_url_field :
  forall c : Config,
    reachable c ->
    view (now c) = Loading \/ view (now c) = Result ->
    exists earlier, sent c = earlier ++ [post_analyze (youtubeUrl (now c))].
Proof.
  intros c Hreach Hview.
  apply (inv_last c (reachable_Inv2 c Hreach)).
  pose proof (Inv_flags c (reachable_Inv c Hreach) (reachable_Inv2 c Hreach)) as Hf.
  unfold busy. destruct Hview as [Hv|Hv]; rewrite Hv in Hf.
  - destruct Hf as ([t ->] & _). reflexivity.
  - destruct Hf as ([t ->] & _). reflexivity.
Qed.

(** An instance of X10: the second result of the scenario. *)
Lemma last_request_is_url_field_witness :
  exists earlier,
    sent Scenario.plain_result
    = earlier ++ [post_analyze (youtubeUrl (now Scenario.plain_result))].
Proof.
  apply (last_request_is_url_field Scenario.plain_result).
  - exists Scenario.two_plain_analyses. apply or_mounted_Some. reflexivity.
  - right. reflexivity.
Defined.

(** *** A settlement that throws *)





End MachineFacts.

(* ===================================================================== *)
(** ** Properties of the display helpers                                 *)
(* ===================================================================== *)

Module DisplayFacts.
Import JS Controller Display.

Lemma lit_inj (a b : string) : lit a = lit b -> a = b.
Proof.
  unfold lit. intros H.
  rewrite <- (string_of_list_ascii_of_string a), <- (string_of_list_ascii_of_string b).
  f_equal. revert H.
  generalize (list_ascii_of_string a) (list_ascii_of_string b).
  induction l as [|x l IH]; intros [|y l'] H; try discriminate; [reflexivity|].
  simpl in H. inversion H as [[Hx Hl]].
  f_equal; [|apply IH; exact Hl].
  rewrite <- (ascii_N_embedding x), <- (ascii_N_embedding y), Hx. reflexivity.
Qed.

Lemma of_N_inj (a b : N) : of_N a = of_N b -> a = b.
Proof.
  unfold of_N. intros H. apply lit_inj in H.
  apply DecimalN.Unsigned.to_uint_inj.
  assert (E : NilEmpty.uint_of_string (NilEmpty.string_of_uint (N.to_uint a))
              = NilEmpty.uint_of_string (NilEmpty.string_of_uint (N.to_uint b))).
  { rewrite H. reflexivity. }
  rewrite !NilEmpty.usu in E. inversion E. reflexivity.
Qed.

Lemma uint_digits (d : Decimal.uint) :
  forallb is_digit (lit (NilEmpty.string_of_uint d)) = true.
Proof. induction d; simpl; auto. Qed.

Lemma of_N_digits (n : N) : forallb is_digit (of_N n) = true.
Proof. apply uint_digits. Qed.

Lemma of_N_nonempty (n : N) : (1 <= List.length (of_N n))%nat.
Proof.
  unfold of_N. destruct n as [|p]; simpl; [lia|].
  pose proof (DecimalPos.Unsigned.to_uint_nonnil p) as H.
  destruct (Pos.to_uint p); [contradiction | | | | | | | | | |]; simpl; lia.
Qed.

(** A text splits in one way at its first character that is not a digit. *)
Lemma split_at_colon (l1 l2 r1 r2 : jsstring) :
  forallb is_digit l1 = true -> forallb is_digit l2 = true ->
  l1 ++ 58%N :: r1 = l2 ++ 58%N :: r2 -> l1 = l2 /\ r1 = r2.
Proof.
  revert l2. induction l1 as [|a l1 IH]; intros [|b l2] H1 H2 E; simpl in *.
  - inversion E. auto.
  - inversion E; subst. discriminate.
  - inversion E; subst. discriminate.
  - apply andb_true_iff in H1 as [_ H1]. apply andb_true_iff in H2 as [_ H2].
    injection E as Hab Hrest. subst b.
    destruct (IH l2 H1 H2 Hrest) as [-> ->]. auto.
Qed.

(** The seconds field of a remainder below sixty: two digits that write
    it. *)
Lemma seconds_field (k : nat) :
  (k < 60)%nat ->
  let f := padStart 2 (lit "0") (of_Z (Z.of_nat k)) in
  List.length f = 2%nat /\ forallb is_digit f = true /\ digits_value f = Z.of_nat k.
Proof.
  intros Hk.
  do 60 (destruct k as [|k]; [repeat split|]).
  lia.
Qed.

Lemma of_Z_nonneg (z : Z) : (0 <= z)%Z -> of_Z z = of_N (Z.to_N z).
Proof. destruct z; simpl; [reflexivity | reflexivity | lia]. Qed.

(** X11. For a duration of zero or more seconds, up to
    [Number.MAX_SAFE_INTEGER], [formatDuration] writes the minutes in
    decimal, a colon, and the remaining seconds in exactly two digits; the
    two numbers written make up the duration, so two different durations of
    that range are never shown as the same text. *)
Theorem formatDuration_nonnegative :
  forall seconds : Z,
    (0 <= seconds <= MAX_SAFE_INTEGER)%Z ->
    (exists mm ss,
       formatDuration seconds = mm ++ lit ":" ++ ss
       /\ mm = of_N (Z.to_N (seconds / 60))
       /\ List.length ss = 2%nat
       /\ forallb is_digit ss = true
       /\ (digits_value ss < 60)%Z
       /\ (60 * (seconds / 60) + digits_value ss)%Z = seconds)
    /\ (forall other : Z,
          (0 <= other <= MAX_SAFE_INTEGER)%Z ->
          formatDuration other = formatDuration seconds ->
          other = seconds).
Proof.
  assert (shape : forall s : Z, (0 <= s)%Z ->
            formatDuration s
            = of_N (Z.to_N (s / 60)) ++ 58%N
                :: padStart 2 (lit "0") (of_Z (Z.of_nat (Z.to_nat (Z.rem s 60))))
            /\ (Z.to_nat (Z.rem s 60) < 60)%nat
            /\ (60 * (s / 60) + Z.of_nat (Z.to_nat (Z.rem s 60)))%Z = s).
  { intros s Hs. unfold formatDuration.
    pose proof (Z.rem_bound_pos s 60 Hs ltac:(lia)) as Hr.
    rewrite (of_Z_nonneg (s / 60)) by (apply Z.div_pos; lia).
    rewrite Z2Nat.id by lia. split; [reflexivity|]. split; [lia|].
    rewrite Z.rem_mod_nonneg by lia.
    pose proof (Z.div_mod s 60 ltac:(lia)). lia. }
  intros seconds [Hs _]. destruct (shape seconds Hs) as (E & Hlt & Hsum).
  destruct (seconds_field _ Hlt) as (Hlen & Hdig & Hval). split.
  - eexists. eexists. split; [exact E|]. split; [reflexivity|].
    split; [exact Hlen|]. split; [exact Hdig|]. rewrite Hval. split; lia.
  - intros other [Ho _] Heq.
    destruct (shape other Ho) as (E' & Hlt' & Hsum').
    destruct (seconds_field _ Hlt') as (_ & _ & Hval').
    rewrite E, E' in Heq.
    apply split_at_colon in Heq; try apply of_N_digits.
    destruct Heq as [Hm Hsec]. apply of_N_inj in Hm.
    assert (Hq : (other / 60 = seconds / 60)%Z).
    { apply Z2N.inj; [apply Z.div_pos; lia | apply Z.div_pos; lia | exact Hm]. }
    rewrite Hsec in Hval'. rewrite Hval in Hval'. lia.
Qed.

(** An instance of X11: six and a half minutes; and a duration that is
    shown differently. *)
Lemma formatDuration_nonnegative_witness :
  formatDuration 390 = lit "6:30"
  /\ formatDuration 5 = lit "0:05"
  /\ (forall other : Z,
        (0 <= other <= MAX_SAFE_INTEGER)%Z ->
        formatDuration other = formatDuration 390 -> other = 390%Z).
Proof.
  split; [reflexivity|]. split; [reflexivity|].
  assert (Hb : (0 <= 390 <= MAX_SAFE_INTEGER)%Z) by (unfold MAX_SAFE_INTEGER; lia).
  destruct (formatDuration_nonnegative 390 Hb) as [_ H]. exact H.
Defined.

Lemma of_Z_negative (z : Z) :
  (z < 0)%Z -> padStart 2 (lit "0") (of_Z z) = of_Z z.
Proof.
  intros Hz. destruct z as [|p|p]; try lia.
  assert (H : (2 <= List.length (of_Z (Z.neg p)))%nat).
  { change (of_Z (Z.neg p)) with (lit "-" ++ of_N (N.pos p)).
    rewrite length_app. pose proof (of_N_nonempty (N.pos p)). simpl. lia. }
  unfold padStart. generalize dependent (of_Z (Z.neg p)). intros x H.
  apply Nat.leb_le in H. rewrite H. reflexivity.
Qed.

(** X12. For a negative duration, down to [- Number.MAX_SAFE_INTEGER], that
    is not a whole number of minutes, [formatDuration] writes a negative
    minute count and a negative seconds count that together are one minute
    less than the duration: the quotient is rounded down while the remainder
    keeps the sign of the duration, and the seconds are not padded. *)
Theorem formatDuration_negative :
  forall seconds : Z,
    (- MAX_SAFE_INTEGER <= seconds < 0)%Z -> Z.rem seconds 60 <> 0%Z ->
    exists m r : Z,
      formatDuration seconds = of_Z m ++ lit ":" ++ of_Z r
      /\ (m < 0)%Z
      /\ (-60 < r < 0)%Z
      /\ (60 * m + r = seconds - 60)%Z.
Proof.
  intros seconds [_ Hneg] Hrem.
  exists (seconds / 60)%Z, (Z.rem seconds 60).
  pose proof (Z.rem_bound_pos_neg seconds 60 ltac:(lia) ltac:(lia)) as Hr.
  pose proof (Z.quot_rem seconds 60 ltac:(lia)) as Hq.
  pose proof (Z.div_mod seconds 60 ltac:(lia)) as Hd.
  pose proof (Z.mod_pos_bound seconds 60 ltac:(lia)) as Hm.
  assert (Hr' : (-60 < Z.rem seconds 60 < 0)%Z) by lia.
  split.
  - unfold formatDuration. rewrite of_Z_negative by lia. reflexivity.
  - split; [|split; [exact Hr'|]]; lia.
Qed.

(** An instance of X12: one second before zero is shown as minus one minute
    and minus one second. *)
Lemma formatDuration_negative_witness :
  formatDuration (-1) = lit "-1:-1"
  /\ exists m r : Z,
       formatDuration (-1) = of_Z m ++ lit ":" ++ of_Z r
       /\ (m < 0)%Z
       /\ (-60 < r < 0)%Z
       /\ (60 * m + r = -1 - 60)%Z.
Proof.
  split; [reflexivity|].
  apply (formatDuration_negative (-1)); [unfold MAX_SAFE_INTEGER; lia | discriminate].
Defined.

(** X13. The view count beside the channel name (line 181): with no count
    the line is the channel name alone; with a count other than zero the
    separator, the localised count and [' views'] follow; with a count of
    zero the guard [view_count && ...] yields the number itself and the line
    ends in a bare [0]. *)
Theorem channel_line_cases :
  forall (toLocaleString : Z -> jsstring) (m : VideoMetadata),
    match view_count m with
    | None => channel_line toLocaleString m = channel_name m
    | Some n =>
        if (n =? 0)%Z
        then channel_line toLocaleString m = channel_name m ++ lit "0"
        else channel_line toLocaleString m
             = channel_name m ++ [32; 226; 8364; 162; 32]%N
                 ++ toLocaleString n ++ lit " views"
    end.
Proof.
  intros f m. unfold channel_line, view_count_child.
  destruct (view_count m) as [n|]; simpl.
  - destruct (Z.eqb_spec n 0) as [->|Hn]; reflexivity.
  - apply app_nil_r.
Qed.

End DisplayFacts.

(* ===================================================================== *)
(** ** Further properties of the summariser stub                         *)
(* ===================================================================== *)

Module SummarizerMore.
Import Summarizer Loggers.
Local Open Scope string_scope.

(** X14. Whatever the logger does, the two operations return a value only
    when [logger.info] returns, and the value is then the fixed paragraph
    (the fixed list); when [logger.info] raises they raise: there is no
    default or partial result. *)
Theorem returns_iff_info_returns :
  forall (lg : Logger) (self : SummarizerService) (transcript : string)
         (duration_seconds : Z) (l : Log),
    match @info lg "Generating overall summary" l with
    | (inr _, l1) =>
        @generate_summary lg self transcript l = (inr fixed_paragraph, l1)
    | (inl _, _) =>
        exists e l2, @generate_summary lg self transcript l = (inl e, l2)
    end
    /\ match @info lg "Generating timeline summary" l with
       | (inr _, l1) =>
           @generate_timeline_summary lg self transcript duration_seconds l
           = (inr mock_timeline, l1)
       | (inl _, _) =>
           exists e l2,
             @generate_timeline_summary lg self transcript duration_seconds l = (inl e, l2)
       end.
Proof.
  intros lg self transcript duration_seconds l. split.
  - unfold generate_summary, try_except_Exception, bind, ret, raise.
    destruct (@info lg "Generating overall summary" l) as [[e|u] l1].
    + destruct (is_Exception e); [|eauto].
      destruct (@error lg ("Error generating summary: " ++ str e) l1) as [[e2|u2] l2]; eauto.
    + rewrite SummarizerFacts.strip_mock_summary. reflexivity.
  - unfold generate_timeline_summary, try_except_Exception, bind, ret, raise.
    destruct (@info lg "Generating timeline summary" l) as [[e|u] l1].
    + destruct (is_Exception e); [|eauto].
      destruct (@error lg ("Error generating timeline summary: " ++ str e) l1)
        as [[e2|u2] l2]; eauto.
    + reflexivity.
Qed.

(** X15. If the handler's own call of [logger.error] raises, that exception
    is what the operation raises: the wrapped [Exception] with the
    ['Failed to generate ...'] message is not raised. *)
Theorem error_in_handler_propagates :
  forall (lg : Logger) (self : SummarizerService) (transcript : string)
         (duration_seconds : Z) (l l1 l2 : Log) (e e2 : PyExc),
    is_Exception e = true ->
    (@info lg "Generating overall summary" l = (inl e, l1) ->
     @error lg ("Error generating summary: " ++ str e) l1 = (inl e2, l2) ->
     @generate_summary lg self transcript l = (inl e2, l2))
    /\ (@info lg "Generating timeline summary" l = (inl e, l1) ->
        @error lg ("Error generating timeline summary: " ++ str e) l1 = (inl e2, l2) ->
        @generate_timeline_summary lg self transcript duration_seconds l = (inl e2, l2)).
Proof.
  intros lg self transcript duration_seconds l l1 l2 e e2 He. split.
  - intros Hinfo Herror.
    unfold generate_summary, try_except_Exception, bind.
    rewrite Hinfo, He, Herror. reflexivity.
  - intros Hinfo Herror.
    unfold generate_timeline_summary, try_except_Exception, bind.
    rewrite Hinfo, He, Herror. reflexivity.
Qed.

(** An instance of X15: [logger.info] raises [ValueError('boom')] and
    [logger.error] raises [OSError('disk full')]. *)
Lemma error_in_handler_propagates_witness :
  @generate_summary (broken_logger (ValueError "boom") (OSError "disk full"))
     service "transcript" []
    = (inl (OSError "disk full"), [])
  /\ @generate_timeline_summary (broken_logger (ValueError "boom") (OSError "disk full"))
       service "transcript" 390 []
     = (inl (OSError "disk full"), []).
Proof.
  destruct (error_in_handler_propagates
              (broken_logger (ValueError "boom") (OSError "disk full"))
              service "transcript" 390 [] [] [] (ValueError "boom") (OSError "disk full")
              eq_refl) as [H1 H2].
  split; [apply H1; reflexivity | apply H2; reflexivity].
Defined.

End SummarizerMore.
